(** * Massing viewer: envelope projection, massing builder, scene state

    A shallow embedding of the React/Three.js massing viewer
    (ZoningEnvelope.jsx, LotPlane, BuildingMesh, ComparisonView, App) and
    the properties its specification states about it.

    Conventions of the embedding.
    - A JavaScript number is an exact rational ([Q]); rounding of IEEE
      doubles is outside the model.  Equalities between computed numbers
      are therefore stated with [==] where a fraction is not in lowest
      terms.
    - A numeric JSON field that may be missing is an [option Q]; [None]
      stands for a field that is absent or [null] (both falsy).
    - A component that returns [null], and a JSX child guarded by
      [cond && ...], is an [option]; [children.map] is a [list].
    - Coordinates are [x, y, z] with x = lot width, y = height,
      z = lot depth, in feet. *)

From Stdlib Require Import QArith Qminmax Lqa.
From stdpp Require Import base option list strings gmap pretty.

(** ** JavaScript helpers *)

Module Js.

(** [a < b] on numbers, as a boolean. *)
Definition ltb (a b : Q) : bool := negb (Qle_bool b a).

(** Truthiness of a number: [0] is falsy. *)
Definition truthy (q : Q) : bool := negb (Qeq_bool q 0).

(** [v || d] where [v] is a numeric field and [d] a numeric literal:
    the field when it is present and non-zero, else the literal. *)
Definition or_num (v : option Q) (d : Q) : Q :=
  match v with
  | Some q => if truthy q then q else d
  | None => d
  end.

(** [Math.min(a, b)]. *)
Definition min (a b : Q) : Q := Qmin a b.

(** [Math.min(...xs)] for a non-empty argument list; [Infinity] for the
    empty one is not a rational, so the caller supplies the first element. *)
Definition min_list (x : Q) (xs : list Q) : Q := foldr Qmin x xs.

End Js.

(** ** Data model (the JSON payload) *)

Definition point : Type := Q * Q.          (* [x, z] on the ground plane *)
Definition vec3 : Type := Q * Q * Q.       (* [x, y, z] *)

Record StreetEdge := {
  edge : option (list point);
  street_name : option string;
  width : string;
}.

Record Lot := {
  polygon : option (list point);
  frontage_ft : option Q;
  depth_ft : option Q;
  street_edges : option (list StreetEdge);
}.

Record SkyExposure := {
  start_height : option Q;
  slope : option Q;
}.

Record Envelope := {
  max_height_ft : option Q;
  base_height_max_ft : option Q;
  setback_line : option (list point);
  sky_exposure_plane : option SkyExposure;
}.

Record Floor := {
  floor_num : Z;
  use : string;
  elevation_ft : Q;
  height_ft : Q;
  footprint : option (list point);
}.

Record Bulkhead := {
  bh_footprint : option (list point);
  bh_height_ft : Q;
  bh_elevation_ft : Q;
}.

Record Scenario := {
  name : string;
  floors : option (list Floor);
  bulkhead : option Bulkhead;
  zoning_envelope : option Envelope;
}.

Record MassingData := {
  lot : Lot;
  scenarios : list Scenario;
}.

(** ** Scene elements *)

(** A [THREE.Shape] path as the sequence of calls that builds it. *)
Inductive PathCmd :=
| MoveTo (p : point)
| LineTo (p : point)
| ClosePath.

Inductive Geometry :=
| PlaneGeometry (w h : Q)                       (* rotated flat: x by z *)
| ShapeGeometry (path : list PathCmd)           (* rotated flat *)
| ExtrudeGeometry (path : list PathCmd) (depth : Q)  (* extruded along +y *)
| BufferGeometry (vertices : list vec3) (indices : list nat).

(** The value of a [color] prop: a CSS color string, or a member a
    lookup found on [Object.prototype] instead of a color (a function, or
    the prototype object itself for [__proto__]). *)
Inductive PropValue :=
| Css (s : string)
| Inherited (member : string).

Coercion Css : string >-> PropValue.

Record Mesh := {
  geometry : Geometry;
  position : vec3;
  color : PropValue;
  opacity : Q;
}.

Record Line := {
  points : list vec3;
  line_color : string;
  lineWidth : Q;
  dashed : option (Q * Q);          (* dashSize, gapSize *)
  line_opacity : option Q;
}.

Record Text := {
  text_position : vec3;
  fontSize : Q;
  text : string;
}.

(** ** ZoningEnvelope.jsx *)

(** The group [ZoningEnvelope] returns, child by child. *)
Record EnvelopeGroup := {
  env_top_plane : Mesh;
  env_top_border : Line;
  env_base : option (Mesh * Line);
  env_verticals : list Line;
  env_setback : option (Line * Line * Line);
  env_sep : option Mesh;
}.

Section ZoningEnvelope.
Local Open Scope Q_scope.

Definition SkyExposurePlane (sep : SkyExposure) (lot : Lot) : Mesh :=
  let w := Js.or_num (frontage_ft lot) 50 in
  let d := Js.or_num (depth_ft lot) 100 in
  let startH := Js.or_num (start_height sep) 60 in
  let slope := Js.or_num (slope sep) 2.7 in
  let vertices :=
    [ (0, startH, 0);
      (w, startH, 0);
      (w, Js.min (startH + d * slope) 300, d);
      (0, Js.min (startH + d * slope) 300, d) ] in
  let indices := [0; 1; 2; 0; 2; 3]%nat in
  {| geometry := BufferGeometry vertices indices;
     position := (0, 0, 0);
     color := "#f39c12";
     opacity := 0.1 |}.

Definition ZoningEnvelope (envelope : Envelope) (lot : Lot) : EnvelopeGroup :=
  let w := Js.or_num (frontage_ft lot) 50 in
  let d := Js.or_num (depth_ft lot) 100 in
  let maxH := Js.or_num (max_height_ft envelope) 100 in
  let baseH := Js.or_num (base_height_max_ft envelope) 60 in
  let topPlane := PlaneGeometry (w + 4) (d + 4) in
  let basePlane := PlaneGeometry (w + 4) (d + 4) in
  let corners := [ (0, 0); (w, 0); (w, d); (0, d) ] in
  let setbackLine := setback_line envelope in
  let sep := sky_exposure_plane envelope in
  {| env_top_plane :=
       {| geometry := topPlane; position := (w / 2, maxH, d / 2);
          color := "#4A90D9"; opacity := 0.08 |};
     env_top_border :=
       {| points := [ (0, maxH, 0); (w, maxH, 0); (w, maxH, d);
                      (0, maxH, d); (0, maxH, 0) ];
          line_color := "#4A90D9"; lineWidth := 1.5;
          dashed := Some (3, 2); line_opacity := None |};
     env_base :=
       if Js.ltb 0 baseH && Js.ltb baseH maxH then
         Some ({| geometry := basePlane; position := (w / 2, baseH, d / 2);
                  color := "#6BBF6B"; opacity := 0.06 |},
               {| points := [ (0, baseH, 0); (w, baseH, 0); (w, baseH, d);
                              (0, baseH, d); (0, baseH, 0) ];
                  line_color := "#6BBF6B"; lineWidth := 1;
                  dashed := Some (2, 2); line_opacity := None |})
       else None;
     env_verticals :=
       map (fun '(cx, cz) =>
              {| points := [ (cx, 0, cz); (cx, maxH, cz) ];
                 line_color := "#4A90D9"; lineWidth := 0.5;
                 dashed := None; line_opacity := Some 0.3 |})
           corners;
     env_setback :=
       match setbackLine with
       | Some (((x0, z0) :: _ :: _) as sl) =>      (* length >= 2 *)
           Some ({| points := map (fun '(x, z) => (x, 0.2, z)) sl;
                    line_color := "#e74c3c"; lineWidth := 1.5;
                    dashed := Some (2, 1); line_opacity := None |},
                 {| points := map (fun '(x, z) => (x, baseH, z)) sl;
                    line_color := "#e74c3c"; lineWidth := 1.5;
                    dashed := Some (2, 1); line_opacity := None |},
                 {| points := [ (x0, 0.2, z0); (x0, baseH, z0) ];
                    line_color := "#e74c3c"; lineWidth := 0.5;
                    dashed := None; line_opacity := Some 0.4 |})
       | _ => None
       end;
     env_sep :=
       match sep with
       | Some s => Some (SkyExposurePlane s lot)
       | None => None
       end |}.

End ZoningEnvelope.

(** ** Shapes *)

(** [shape.moveTo(p0); for (i = 1 ..) shape.lineTo(poly[i]); shape.closePath()]
    for a polygon whose first vertex is [p0]. *)
Definition shape_path (p0 : point) (rest : list point) : list PathCmd :=
  MoveTo p0 :: map LineTo rest ++ [ClosePath].

(** ** LotPlane *)

Inductive YardElement :=
| YardLine (l : Line)
| YardFill (m : Mesh).

Record LotGroup := {
  lot_fill : Mesh;
  lot_boundary : Line;
  lot_street_lines : list Line;
  lot_setbacks : option (list YardElement);
}.

Section LotPlane.
Local Open Scope Q_scope.

Definition SetbackIndicators (lot : Lot) : list YardElement :=
  let w := Js.or_num (frontage_ft lot) 50 in
  let d := Js.or_num (depth_ft lot) 100 in
  let rearYard := 30 in
  let rearZ := d - rearYard in
  if Js.ltb 0 rearYard && Js.ltb 0 rearZ then
    [ YardLine {| points := [ (0, 0.2, rearZ); (w, 0.2, rearZ) ];
                  line_color := "#f39c12"; lineWidth := 1.5;
                  dashed := Some (2, 1.5); line_opacity := None |};
      YardFill {| geometry :=
                    ShapeGeometry
                      (shape_path (0, rearZ) [ (w, rearZ); (w, d); (0, d) ]);
                  position := (0, 0.08, 0);
                  color := "#f39c12"; opacity := 0.12 |} ]
  else [].

Definition LotPlane (lot : Lot) (showSetbacks : bool) : LotGroup :=
  let polygon := default [] (polygon lot) in
  let w := Js.or_num (frontage_ft lot) 50 in
  let d := Js.or_num (depth_ft lot) 100 in
  let lotBoundary :=
    match polygon with
    | (x0, z0) :: _ :: _ :: _ =>                 (* length >= 3 *)
        map (fun '(x, z) => (x, 0.15, z)) polygon ++ [ (x0, 0.15, z0) ]
    | _ =>
        [ (0, 0.15, 0); (w, 0.15, 0); (w, 0.15, d); (0, 0.15, d);
          (0, 0.15, 0) ]
    end in
  let lotFillGeo :=
    ShapeGeometry
      match polygon with
      | p0 :: ((_ :: _ :: _) as rest) => shape_path p0 rest   (* length >= 3 *)
      | _ => shape_path (0, 0) [ (w, 0); (w, d); (0, d) ]
      end in
  let streetEdges :=
    omap (fun se =>
            match edge se with
            | Some ((_ :: _ :: _) as e) =>          (* length >= 2 *)
                Some (map (fun '(x, z) => (x, 0.2, z)) e)
            | _ => None
            end)
         (default [] (street_edges lot)) in
  {| lot_fill :=
       {| geometry := lotFillGeo; position := (0, 0.05, 0);
          color := "#b8d4b8"; opacity := 0.25 |};
     lot_boundary :=
       {| points := lotBoundary; line_color := "#333"; lineWidth := 2;
          dashed := None; line_opacity := None |};
     lot_street_lines :=
       map (fun pts =>
              {| points := pts; line_color := "#e74c3c"; lineWidth := 3;
                 dashed := None; line_opacity := None |})
           streetEdges;
     lot_setbacks :=
       if showSetbacks then Some (SetbackIndicators lot) else None |}.

End LotPlane.

(** ** Application state (App) *)

Record AppState := {
  activeScenario : nat;
  selectedFloor : option Floor;
  hoveredFloor : option Floor;
  showEnvelope : bool;
  showLotBoundary : bool;
  showSetbacks : bool;
  showFloorLabels : bool;
  comparisonMode : bool;
  comparisonScenario : nat;
}.

(** The [useState] initial values. *)
Definition initialApp : AppState :=
  {| activeScenario := 0; selectedFloor := None; hoveredFloor := None;
     showEnvelope := false; showLotBoundary := true; showSetbacks := true;
     showFloorLabels := false; comparisonMode := false;
     comparisonScenario := 1 |}.

(** The React state setters, as state transformers. *)
Definition setActiveScenario (i : nat) (s : AppState) : AppState :=
  {| activeScenario := i; selectedFloor := selectedFloor s;
     hoveredFloor := hoveredFloor s; showEnvelope := showEnvelope s;
     showLotBoundary := showLotBoundary s; showSetbacks := showSetbacks s;
     showFloorLabels := showFloorLabels s; comparisonMode := comparisonMode s;
     comparisonScenario := comparisonScenario s |}.

Definition setSelectedFloor (f : option Floor) (s : AppState) : AppState :=
  {| activeScenario := activeScenario s; selectedFloor := f;
     hoveredFloor := hoveredFloor s; showEnvelope := showEnvelope s;
     showLotBoundary := showLotBoundary s; showSetbacks := showSetbacks s;
     showFloorLabels := showFloorLabels s; comparisonMode := comparisonMode s;
     comparisonScenario := comparisonScenario s |}.

Definition setHoveredFloor (f : option Floor) (s : AppState) : AppState :=
  {| activeScenario := activeScenario s; selectedFloor := selectedFloor s;
     hoveredFloor := f; showEnvelope := showEnvelope s;
     showLotBoundary := showLotBoundary s; showSetbacks := showSetbacks s;
     showFloorLabels := showFloorLabels s; comparisonMode := comparisonMode s;
     comparisonScenario := comparisonScenario s |}.

Definition setShowEnvelope (b : bool) (s : AppState) : AppState :=
  {| activeScenario := activeScenario s; selectedFloor := selectedFloor s;
     hoveredFloor := hoveredFloor s; showEnvelope := b;
     showLotBoundary := showLotBoundary s; showSetbacks := showSetbacks s;
     showFloorLabels := showFloorLabels s; comparisonMode := comparisonMode s;
     comparisonScenario := comparisonScenario s |}.

Definition setShowLotBoundary (b : bool) (s : AppState) : AppState :=
  {| activeScenario := activeScenario s; selectedFloor := selectedFloor s;
     hoveredFloor := hoveredFloor s; showEnvelope := showEnvelope s;
     showLotBoundary := b; showSetbacks := showSetbacks s;
     showFloorLabels := showFloorLabels s; comparisonMode := comparisonMode s;
     comparisonScenario := comparisonScenario s |}.

Definition setShowSetbacks (b : bool) (s : AppState) : AppState :=
  {| activeScenario := activeScenario s; selectedFloor := selectedFloor s;
     hoveredFloor := hoveredFloor s; showEnvelope := showEnvelope s;
     showLotBoundary := showLotBoundary s; showSetbacks := b;
     showFloorLabels := showFloorLabels s; comparisonMode := comparisonMode s;
     comparisonScenario := comparisonScenario s |}.

Definition setShowFloorLabels (b : bool) (s : AppState) : AppState :=
  {| activeScenario := activeScenario s; selectedFloor := selectedFloor s;
     hoveredFloor := hoveredFloor s; showEnvelope := showEnvelope s;
     showLotBoundary := showLotBoundary s; showSetbacks := showSetbacks s;
     showFloorLabels := b; comparisonMode := comparisonMode s;
     comparisonScenario := comparisonScenario s |}.

Definition setComparisonMode (b : bool) (s : AppState) : AppState :=
  {| activeScenario := activeScenario s; selectedFloor := selectedFloor s;
     hoveredFloor := hoveredFloor s; showEnvelope := showEnvelope s;
     showLotBoundary := showLotBoundary s; showSetbacks := showSetbacks s;
     showFloorLabels := showFloorLabels s; comparisonMode := b;
     comparisonScenario := comparisonScenario s |}.

Definition setComparisonScenario (i : nat) (s : AppState) : AppState :=
  {| activeScenario := activeScenario s; selectedFloor := selectedFloor s;
     hoveredFloor := hoveredFloor s; showEnvelope := showEnvelope s;
     showLotBoundary := showLotBoundary s; showSetbacks := showSetbacks s;
     showFloorLabels := showFloorLabels s; comparisonMode := comparisonMode s;
     comparisonScenario := i |}.

(** What pointer handlers can touch: the App state, the [localHover] flag
    of each mounted [FloorMesh] (keyed by building group and floor index)
    and [document.body.style.cursor]. *)
Definition MeshKey : Type := nat * nat.

Record UiState := {
  ui_app : AppState;
  ui_localHover : gset MeshKey;
  ui_cursor : string;
}.

Definition initialUi : UiState :=
  {| ui_app := initialApp; ui_localHover := ∅; ui_cursor := "" |}.

Definition liftApp (f : AppState -> AppState) (u : UiState) : UiState :=
  {| ui_app := f (ui_app u); ui_localHover := ui_localHover u;
     ui_cursor := ui_cursor u |}.

Definition setLocalHover (k : MeshKey) (b : bool) (u : UiState) : UiState :=
  {| ui_app := ui_app u;
     ui_localHover :=
       if b then {[ k ]} ∪ ui_localHover u else ui_localHover u ∖ {[ k ]};
     ui_cursor := ui_cursor u |}.

Definition setCursor (c : string) (u : UiState) : UiState :=
  {| ui_app := ui_app u; ui_localHover := ui_localHover u; ui_cursor := c |}.

(** A callback prop receiving a floor (or [null]): a state setter or a
    no-op closure. *)
Definition FloorCallback : Type := option Floor -> AppState -> AppState.

(** ** BuildingMesh *)

(** The own keys of the [USE_COLORS] object literal. *)
Definition USE_COLORS : gmap string string :=
  <[ "commercial" := "#4A90D9" ]>
  (<[ "residential" := "#F5E6CC" ]>
  (<[ "community_facility" := "#6BBF6B" ]>
  (<[ "parking" := "#999999" ]>
  (<[ "mechanical" := "#777777" ]>
  (<[ "cellar" := "#777777" ]>
  (<[ "core" := "#555555" ]> ∅)))))).

Definition FLOOR_GAP : Q := 0.3.

(** The names a property lookup on an object literal finds on
    [Object.prototype] when the object has no own key of that name. *)
Definition Object_prototype_members : list string :=
  [ "constructor"; "__defineGetter__"; "__defineSetter__"; "hasOwnProperty";
    "__lookupGetter__"; "__lookupSetter__"; "isPrototypeOf";
    "propertyIsEnumerable"; "toString"; "valueOf"; "__proto__";
    "toLocaleString" ].

(** [USE_COLORS[floor.use] || '#cccccc'].  The lookup follows the
    prototype chain: an own key gives its palette entry (a non-empty
    string, hence truthy), a name inherited from [Object.prototype] gives
    that member (a function or an object, truthy as well), and only a
    name found nowhere gives [undefined] and with it the fallback. *)
Definition baseColor (u : string) : PropValue :=
  match USE_COLORS !! u with
  | Some c => Css c
  | None =>
      if bool_decide (u ∈ Object_prototype_members) then Inherited u
      else Css "#cccccc"
  end.

(** One rendered floor: the group [FloorMesh] returns and its handlers. *)
Record FloorMeshEl := {
  fm_position : vec3;                    (* group position *)
  fm_solid : Mesh;                       (* the hit-testable solid *)
  fm_emissive : string;
  fm_wireframe : Mesh;
  fm_label : option Text;
  fm_onClick : UiState -> UiState;
  fm_onPointerEnter : UiState -> UiState;
  fm_onPointerLeave : UiState -> UiState;
}.

Record BulkheadEl := {
  bk_position : vec3;
  bk_solid : Mesh;
  bk_wireframe : Mesh;
}.

Record BuildingGroup := {
  bm_floors : list (option FloorMeshEl);   (* one slot per floor, in order *)
  bm_bulkhead : option BulkheadEl;
}.

Section BuildingMesh.
Local Open Scope Q_scope.

Definition FloorLabel (floor : Floor) : option Text :=
  match footprint floor with
  | Some (((x0, z0) :: _ :: _) as poly) =>          (* length >= 2 *)
      let minX := Js.min_list x0 (map fst poly) in
      let y := height_ft floor / 2 in
      Some {| text_position := (minX - 2, y, z0); fontSize := 2;
              text := "F" +:+ pretty (floor_num floor) |}
  | _ => None
  end.

Definition FloorMesh (key : MeshKey) (floor : Floor) (isHovered : bool)
    (onClick : AppState -> AppState) (onHover : bool -> AppState -> AppState)
    (showLabel : bool) (localHover : bool) : option FloorMeshEl :=
  match footprint floor with
  | Some (p0 :: ((_ :: _ :: _) as rest)) =>         (* length >= 3 *)
      let geo := ExtrudeGeometry (shape_path p0 rest)
                                 (height_ft floor - FLOOR_GAP) in
      let color := baseColor (use floor) in
      let elevation := elevation_ft floor in
      let highlight := isHovered || localHover in
      Some {| fm_position := (0, elevation + FLOOR_GAP / 2, 0);
              fm_solid :=
                {| geometry := geo; position := (0, 0, 0); color := color;
                   opacity := if highlight then 0.85 else 1 |};
              fm_emissive := if highlight then "#ffffff" else "#000000";
              fm_wireframe :=
                {| geometry := geo; position := (0, 0, 0);
                   color := "#333333"; opacity := 0.08 |};
              fm_label := if showLabel then FloorLabel floor else None;
              fm_onClick := liftApp onClick;
              fm_onPointerEnter := fun u =>
                setCursor "pointer"
                  (liftApp (onHover true) (setLocalHover key true u));
              fm_onPointerLeave := fun u =>
                setCursor "default"
                  (liftApp (onHover false) (setLocalHover key false u)) |}
  | _ => None                                     (* geometry: null *)
  end.

Definition BulkheadMesh (b : Bulkhead) : option BulkheadEl :=
  match bh_footprint b with
  | Some (p0 :: ((_ :: _ :: _) as rest)) =>         (* length >= 3 *)
      let geo := ExtrudeGeometry (shape_path p0 rest) (bh_height_ft b) in
      Some {| bk_position := (0, bh_elevation_ft b, 0);
              bk_solid := {| geometry := geo; position := (0, 0, 0);
                             color := "#888888"; opacity := 1 |};
              bk_wireframe := {| geometry := geo; position := (0, 0, 0);
                                 color := "#333"; opacity := 0.1 |} |}
  | _ => None
  end.

(** [group] names the mounted [BuildingMesh] instance; [hover] holds the
    [localHover] flags of its [FloorMesh] children. *)
Definition BuildingMesh (group : nat) (hover : gset MeshKey)
    (scenario : option Scenario)
    (onFloorClick onFloorHover : option FloorCallback)
    (hoveredFloor : option Floor) (showFloorLabels : bool)
    : option BuildingGroup :=
  match scenario with
  | Some sc =>
      match floors sc with
      | Some fls =>
          Some {| bm_floors :=
                    imap (fun idx floor =>
                            FloorMesh (group, idx) floor
                              match hoveredFloor with
                              | Some h => (floor_num h =? floor_num floor)%Z
                              | None => false
                              end
                              (match onFloorClick with
                               | Some cb => cb (Some floor)
                               | None => id
                               end)
                              (fun hovered =>
                                 match onFloorHover with
                                 | Some cb =>
                                     cb (if hovered then Some floor else None)
                                 | None => id
                                 end)
                              showFloorLabels
                              (bool_decide ((group, idx) ∈ hover)))
                         fls;
                  bm_bulkhead :=
                    match bulkhead sc with
                    | Some b => BulkheadMesh b
                    | None => None
                    end |}
      | None => None
      end
  | None => None
  end.

(** Vertical extent [bottom, top] of a rendered floor solid: the
    extrusion runs from the group position to [depth] above it, which is
    below it when [depth] is negative. *)
Definition extent (e : FloorMeshEl) : Q * Q :=
  let y := snd (fst (fm_position e)) in
  match geometry (fm_solid e) with
  | ExtrudeGeometry _ depth => (Qmin y (y + depth), Qmax y (y + depth))
  | _ => (y, y)
  end.


End BuildingMesh.

(** ** MassingScene and ComparisonView

    The north arrow, scale bar, lights and ground plane are fixed
    annotations that depend on no state and cannot fail; they are left
    out.  The street label is kept: building it can throw. *)

(** The outcome of rendering an element whose code reads a property of a
    value that may be [undefined]. *)
Inductive render (A : Type) :=
| Rendered (a : A)
| TypeError.
Arguments Rendered {A} a.
Arguments TypeError {A}.

Record SingleScene := {
  ms_center : vec3;
  ms_cameraPos : vec3;
  ms_lot : option LotGroup;
  ms_building : option BuildingGroup;
  ms_envelope : option EnvelopeGroup;
  ms_street_label : render (option Text);
}.

Record SideGroup := {
  sg_position : vec3;
  sg_lot : option LotGroup;
  sg_building : option BuildingGroup;
  sg_envelope : option EnvelopeGroup;
  sg_label : Text;
}.

Record ComparisonScene := {
  cv_center : vec3;
  cv_cameraPos : vec3;
  cv_A : SideGroup;
  cv_B : SideGroup;
  cv_divider : Text;
}.

(** [s || d] on strings: the empty string is falsy. *)
Definition or_string (s d : string) : string :=
  if String.eqb s "" then d else s.

(** [cond && scenario.zoning_envelope && <ZoningEnvelope ... />]. *)
Definition envelope_overlay (showEnvelope : bool) (sc : Scenario) (lot : Lot)
    : option EnvelopeGroup :=
  if showEnvelope then
    match zoning_envelope sc with
    | Some env => Some (ZoningEnvelope env lot)
    | None => None
    end
  else None.

Section Annotations.
Local Open Scope Q_scope.

(** [StreetLabel] of MassingScene: the name of the street and its width
    class, at the midpoint of the edge moved 8 ft towards the street.  It
    reads [edge.edge[0][0]] and [edge.edge[1][0]] without a guard. *)
Definition StreetLabel (e : StreetEdge) : render Text :=
  let name := or_string (default "" (street_name e)) "Street" in
  let widthLabel :=
    if String.eqb (width e) "wide" then " (Wide)" else " (Narrow)" in
  match edge e with
  | Some ((x0, z0) :: (x1, z1) :: _) =>
      let midX := (x0 + x1) / 2 in
      let midZ := (z0 + z1) / 2 in
      Rendered {| text_position := (midX, 0.5, midZ - 8); fontSize := 4;
                  text := name +:+ widthLabel |}
  | _ => TypeError
  end.

(** [lot.street_edges && lot.street_edges.length > 0 &&
     <StreetLabel edge={lot.street_edges[0]} />]. *)
Definition street_label (l : Lot) : render (option Text) :=
  match street_edges l with
  | Some (e :: _) =>
      match StreetLabel e with
      | Rendered t => Rendered (Some t)
      | TypeError => TypeError
      end
  | _ => Rendered None
  end.

End Annotations.

Section Views.
Local Open Scope Q_scope.

Definition MassingScene (hover : gset MeshKey) (massingData : MassingData)
    (scenario : Scenario)
    (showEnvelope showLotBoundary showSetbacks showFloorLabels : bool)
    (onFloorClick onFloorHover : option FloorCallback)
    (hoveredFloor : option Floor) : SingleScene :=
  let lot := lot massingData in
  let w := Js.or_num (frontage_ft lot) 50 in
  let d := Js.or_num (depth_ft lot) 100 in
  let cx := w / 2 in
  let cz := d / 2 in
  let maxDim := Qmax w d in
  let camDist := maxDim * 1.8 in
  {| ms_center := (cx, 0, cz);
     ms_cameraPos := (cx + camDist * 0.6, camDist * 0.5, cz + camDist * 0.6);
     ms_lot := if showLotBoundary then Some (LotPlane lot showSetbacks)
               else None;
     ms_building :=
       BuildingMesh 0 hover (Some scenario) onFloorClick onFloorHover
                    hoveredFloor showFloorLabels;
     ms_envelope := envelope_overlay showEnvelope scenario lot;
     ms_street_label := street_label lot |}.

(** The two scenarios the comparison view shows:
    [scenarios[scenarioA]] and [scenarios[scenarioB] || scenarios[0]]. *)
Definition comparison_pair (scenarios : list Scenario)
    (scenarioA scenarioB : nat) : option Scenario * option Scenario :=
  (scenarios !! scenarioA,
   match scenarios !! scenarioB with
   | Some s => Some s
   | None => scenarios !! 0%nat
   end).

(** [None]: rendering throws (a property of [undefined] is read when a
    scenario index selects nothing). *)
Definition ComparisonView (hover : gset MeshKey) (massingData : MassingData)
    (scenarioA scenarioB : nat)
    (showEnvelope showLotBoundary showSetbacks showFloorLabels : bool)
    : option ComparisonScene :=
  let lot := lot massingData in
  let scenarios := scenarios massingData in
  match comparison_pair scenarios scenarioA scenarioB with
  | (Some scA, Some scB) =>
      let w := Js.or_num (frontage_ft lot) 50 in
      let d := Js.or_num (depth_ft lot) 100 in
      let gap := 20 in
      let offsetB := w + gap in
      let totalW := w * 2 + gap in
      let cx := totalW / 2 in
      let cz := d / 2 in
      let camDist := Qmax totalW d * 1.6 in
      let noop : FloorCallback := fun _ s => s in
      let side (group : nat) (x : Q) (sc : Scenario) (fallback : string) :=
        {| sg_position := (x, 0, 0);
           sg_lot := if showLotBoundary then Some (LotPlane lot showSetbacks)
                     else None;
           sg_building :=
             BuildingMesh group hover (Some sc) (Some noop) (Some noop)
                          None showFloorLabels;
           sg_envelope := envelope_overlay showEnvelope sc lot;
           sg_label := {| text_position := (w / 2, -3, -6); fontSize := 3;
                          text := or_string (name sc) fallback |} |} in
      Some {| cv_center := (cx, 0, cz);
              cv_cameraPos :=
                (cx + camDist * 0.5, camDist * 0.5, cz + camDist * 0.5);
              cv_A := side 0%nat 0 scA "Scenario A";
              cv_B := side 1%nat offsetB scB "Scenario B";
              cv_divider := {| text_position := (w + gap / 2, 1, -10);
                               fontSize := 2.5; text := "vs" |} |}
  | _ => None
  end.

End Views.

(** ** App: what is rendered, and the event handlers *)

Inductive Scene :=
| Single (s : SingleScene)
| Comparison (c : ComparisonScene).

(** The scene container of [App].  [None]: nothing is drawn (the
    "No Massing Data" screen for an empty scenario list, or a render
    error: a comparison index that selects nothing, or a street label
    that cannot be built in the single view). *)
Definition App_scene (massingData : MassingData) (u : UiState) : option Scene :=
  let s := ui_app u in
  let scenarios := scenarios massingData in
  match scenarios with
  | [] => None
  | sc0 :: _ =>
      let currentScenario := default sc0 (scenarios !! activeScenario s) in
      if comparisonMode s then
        Comparison <$>
          ComparisonView (ui_localHover u) massingData
            (activeScenario s) (comparisonScenario s)
            (showEnvelope s) (showLotBoundary s) (showSetbacks s)
            (showFloorLabels s)
      else
        let scene :=
          MassingScene (ui_localHover u) massingData currentScenario
            (showEnvelope s) (showLotBoundary s) (showSetbacks s)
            (showFloorLabels s)
            (Some setSelectedFloor) (Some setHoveredFloor)
            (hoveredFloor s) in
        match ms_street_label scene with
        | Rendered _ => Some (Single scene)
        | TypeError => None
        end
  end.

Definition scene_buildings (sc : Scene) : list (option BuildingGroup) :=
  match sc with
  | Single m => [ ms_building m ]
  | Comparison c => [ sg_building (cv_A c); sg_building (cv_B c) ]
  end.

(** The floor solid mounted under key [(group, idx)], if any. *)
Definition floor_mesh_at (sc : Scene) (k : MeshKey) : option FloorMeshEl :=
  match scene_buildings sc !! fst k with
  | Some (Some b) =>
      match bm_floors b !! snd k with
      | Some (Some e) => Some e
      | _ => None
      end
  | _ => None
  end.

(** The scenario [<select>] of the toolbar, [onChange]. *)
Definition onScenarioChange (i : nat) (s : AppState) : AppState :=
  setHoveredFloor None (setSelectedFloor None (setActiveScenario i s)).

Inductive PointerEvent := Click | PointerEnter | PointerLeave.

Inductive Event :=
| ScenarioChange (i : nat)
| EnvelopeChange (checked : bool)
| LotChange (checked : bool)
| SetbacksChange (checked : bool)
| LabelsChange (checked : bool)
| CompareClick
| ComparisonChange (i : nat)
| Pointer (k : MeshKey) (e : PointerEvent).

Definition pointer_handler (e : PointerEvent) (m : FloorMeshEl)
    : UiState -> UiState :=
  match e with
  | Click => fm_onClick m
  | PointerEnter => fm_onPointerEnter m
  | PointerLeave => fm_onPointerLeave m
  end.

(** One event of the user interface, for a fixed payload.  [None]: the
    interface does not offer the event in this state (an index that is
    not an option of the select, a floor solid that is not mounted).
    Messages that replace the payload are the subject of [app_step]
    below.  The [localHover] flags are kept per key: the flag of a solid
    that is unmounted and mounted again is not reset here. *)
Definition handle (massingData : MassingData) (ev : Event) (u : UiState)
    : option UiState :=
  let s := ui_app u in
  let n := length (scenarios massingData) in
  if bool_decide (n = 0)%nat then None       (* no toolbar, no scene *)
  else
  match ev with
  | ScenarioChange i =>
      if bool_decide (i < n)%nat then Some (liftApp (onScenarioChange i) u)
      else None
  | EnvelopeChange b => Some (liftApp (setShowEnvelope b) u)
  | LotChange b => Some (liftApp (setShowLotBoundary b) u)
  | SetbacksChange b => Some (liftApp (setShowSetbacks b) u)
  | LabelsChange b => Some (liftApp (setShowFloorLabels b) u)
  | CompareClick =>
      Some (liftApp (setComparisonMode (negb (comparisonMode s))) u)
  | ComparisonChange i =>
      if comparisonMode s
         && bool_decide (i < n)%nat
         && negb (i =? activeScenario s)%nat
      then Some (liftApp (setComparisonScenario i) u)
      else None
  | Pointer k e =>
      match App_scene massingData u with
      | Some sc =>
          match floor_mesh_at sc k with
          | Some m => Some (pointer_handler e m u)
          | None => None
          end
      | None => None
      end
  end.

Inductive reachable (massingData : MassingData) : UiState -> Prop :=
| reach_init : reachable massingData initialUi
| reach_step u ev u' :
    reachable massingData u ->
    handle massingData ev u = Some u' ->
    reachable massingData u'.

(** ** Derived notions used by the properties *)

(** A numeric field that [||] replaces by its default: missing, or zero. *)
Definition falsy (v : option Q) : Prop :=
  match v with
  | Some q => (q == 0)%Q
  | None => True
  end.

(** The effective dimensions, under the names the components give them. *)
Definition lot_w (l : Lot) : Q := Js.or_num (frontage_ft l) 50.
Definition lot_d (l : Lot) : Q := Js.or_num (depth_ft l) 100.
Definition env_maxH (e : Envelope) : Q := Js.or_num (max_height_ft e) 100.
Definition env_baseH (e : Envelope) : Q := Js.or_num (base_height_max_ft e) 60.

(** The elevation ([y]) of a position. *)
Definition elevation_of (p : vec3) : Q := snd (fst p).

(** Specification side: the base-height boundary is shown exactly when
    both heights are given and [0 < base_height_max_ft < max_height_ft]. *)
Definition spec_base_shown (e : Envelope) : Prop :=
  exists b m, base_height_max_ft e = Some b /\ max_height_ft e = Some m
              /\ (0 < b)%Q /\ (b < m)%Q.


(** Specification side: the enumerated values of [use]. *)
Definition enumerated_uses : list string :=
  [ "commercial"; "residential"; "community_facility"; "parking";
    "mechanical"; "cellar"; "core" ].

(** The frontage-by-depth rectangle [LotPlane] draws when the lot polygon
    has fewer than three points. *)
Definition fallback_boundary (l : Lot) : list vec3 :=
  [ (0, 0.15, 0); (lot_w l, 0.15, 0); (lot_w l, 0.15, lot_d l);
    (0, 0.15, lot_d l); (0, 0.15, 0) ]%Q.

Definition fallback_fill (l : Lot) : Geometry :=
  ShapeGeometry
    [ MoveTo (0, 0); LineTo (lot_w l, 0); LineTo (lot_w l, lot_d l);
      LineTo (0, lot_d l); ClosePath ]%Q.

(** The points of the three setback lines, when they are drawn. *)
Definition setback_points (g : EnvelopeGroup)
    : option (list vec3 * list vec3 * list vec3) :=
  match env_setback g with
  | Some (atGrade, atBase, riser) =>
      Some (points atGrade, points atBase, points riser)
  | None => None
  end.


(** Concrete inputs used to exercise the components. *)
Module Examples.
Local Open Scope Q_scope.

Definition rect_50x100 : list point := [ (0, 0); (50, 0); (50, 100); (0, 100) ].

Definition lot_50x100 : Lot :=
  {| polygon := Some rect_50x100; frontage_ft := Some 50;
     depth_ft := Some 100; street_edges := None |}.

(** A lot whose polygon has only two points. *)
Definition lot_two_points : Lot :=
  {| polygon := Some [ (0, 0); (50, 0) ]; frontage_ft := Some 50;
     depth_ft := Some 100; street_edges := None |}.



(** Max height 100, a two-point setback line, base height unset. *)
Definition env_no_base : Envelope :=
  {| max_height_ft := Some 100; base_height_max_ft := None;
     setback_line := Some [ (10, 0); (10, 70) ];
     sky_exposure_plane := None |}.

(** The envelope of the demo data. *)
Definition env_demo : Envelope :=
  {| max_height_ft := Some 95; base_height_max_ft := Some 65;
     setback_line := Some [ (10, 0); (10, 70) ];
     sky_exposure_plane := None |}.


(** One commercial floor over the full lot, 15 ft high, at grade. *)
Definition floor_ground : Floor :=
  {| floor_num := 1; use := "commercial"; elevation_ft := 0;
     height_ft := 15; footprint := Some rect_50x100 |}.

Definition floor_second : Floor :=
  {| floor_num := 2; use := "residential"; elevation_ft := 15;
     height_ft := 10; footprint := Some rect_50x100 |}.

(** A full floor whose use is a name every JavaScript object inherits. *)
Definition floor_constructor : Floor :=
  {| floor_num := 1; use := "constructor"; elevation_ft := 0;
     height_ft := 15; footprint := Some rect_50x100 |}.

(** A floor whose footprint has only two points. *)
Definition floor_degenerate : Floor :=
  {| floor_num := 3; use := "residential"; elevation_ft := 25;
     height_ft := 10; footprint := Some [ (0, 0); (50, 0) ] |}.

Definition bulkhead_degenerate : Bulkhead :=
  {| bh_footprint := Some [ (15, 20); (35, 20) ]; bh_height_ft := 15;
     bh_elevation_ft := 85 |}.

Definition scenario_one_floor : Scenario :=
  {| name := "One floor"; floors := Some [ floor_ground ];
     bulkhead := None; zoning_envelope := None |}.

Definition scenario_two_floors : Scenario :=
  {| name := "Two floors"; floors := Some [ floor_ground; floor_second ];
     bulkhead := None; zoning_envelope := Some env_demo |}.

Definition data_two : MassingData :=
  {| lot := lot_50x100;
     scenarios := [ scenario_one_floor; scenario_two_floors ] |}.

(** Comparison mode with the toolbar select then moved to scenario 1. *)
Definition ui_compare_same : UiState :=
  liftApp (onScenarioChange 1)
          (liftApp (setComparisonMode true) initialUi).

End Examples.

(** ** Further parts of the viewer *)

(** The floor tooltip of App: [hoveredFloor && !selectedFloor]. *)
Definition floor_tooltip (s : AppState) : option Floor :=
  match hoveredFloor s, selectedFloor s with
  | Some h, None => Some h
  | _, _ => None
  end.

(** The floor card of InfoPanel:
    [(selectedFloor || hoveredFloor) && <FloorCard floor={selectedFloor || hoveredFloor} />]. *)
Definition floor_detail (s : AppState) : option Floor :=
  match selectedFloor s with
  | Some f => Some f
  | None => hoveredFloor s
  end.

(** The options of the comparison select of InfoPanel:
    [scenarios.map((s, i) => i !== activeScenario && <option value={i} />)]. *)
Definition comparison_options (scs : list Scenario) (active : nat) : list nat :=
  filter (fun i => i ≠ active) (seq 0 (length scs)).

Section Preselect.

(** [name.toLowerCase().includes(query.toLowerCase())], a library
    function of the host: taken as given. *)
Variable includes_ci : string -> string -> bool.

(** The effect of App that preselects a scenario from the URL: with a
    non-empty [?scenario=] parameter, the first scenario whose name
    contains it becomes active; [findIndex] returning -1 changes nothing. *)
Definition preselectScenario (scenarioName : option string)
    (massingData : MassingData) (s : AppState) : AppState :=
  match scenarioName with
  | Some q =>
      if String.eqb q "" then s
      else
        match list_find (fun sc => includes_ci (name sc) q = true)
                        (scenarios massingData) with
        | Some (idx, _) => setActiveScenario idx s
        | None => s
        end
  | None => s
  end.

End Preselect.

(** A sequence of user-interface events, stopping at the first one that
    the interface does not offer. *)
Fixpoint run (massingData : MassingData) (evs : list Event) (u : UiState)
    : option UiState :=
  match evs with
  | [] => Some u
  | ev :: rest =>
      match handle massingData ev u with
      | Some u' => run massingData rest u'
      | None => None
      end
  end.

(** *** App with its data

    Besides the events of its interface, App receives [MASSING_DATA]
    messages from the embedding page.  The message handler replaces
    [massingData]; the effect that depends on [massingData] then runs the
    URL preselection again, on the new payload.  The other state is kept. *)
Inductive AppEvent :=
| Interface (ev : Event)
| MassingDataMessage (payload : MassingData).

Section AppMachine.

Variable includes_ci : string -> string -> bool.

(** The [?scenario=] parameter of the page URL. *)
Variable scenarioName : option string.

(** App once its first payload has arrived and the effect has run. *)
Definition app_loaded (massingData : MassingData) : MassingData * UiState :=
  (massingData,
   liftApp (preselectScenario includes_ci scenarioName massingData) initialUi).

Definition app_step (st : MassingData * UiState) (ev : AppEvent)
    : option (MassingData * UiState) :=
  match ev with
  | Interface e =>
      match handle (fst st) e (snd st) with
      | Some u' => Some (fst st, u')
      | None => None
      end
  | MassingDataMessage payload =>
      Some (payload,
            liftApp (preselectScenario includes_ci scenarioName payload)
                    (snd st))
  end.

Fixpoint app_run (evs : list AppEvent) (st : MassingData * UiState)
    : option (MassingData * UiState) :=
  match evs with
  | [] => Some st
  | ev :: rest =>
      match app_step st ev with
      | Some st' => app_run rest st'
      | None => None
      end
  end.

End AppMachine.

(** The events that can change the selected floor. *)
Definition selects (ev : Event) : bool :=
  match ev with
  | ScenarioChange _ => true
  | Pointer _ Click => true
  | _ => false
  end.

(** The scenario shown by the building group [g] of the current view:
    the current scenario in the single view, the two compared scenarios
    in the comparison view. *)
Definition shown_scenario (massingData : MassingData) (s : AppState)
    (g : nat) : option Scenario :=
  let scs := scenarios massingData in
  if comparisonMode s then
    match comparison_pair scs (activeScenario s) (comparisonScenario s) with
    | (Some scA, Some scB) => [ scA; scB ] !! g
    | _ => None
    end
  else
    match g, scs with
    | O, sc0 :: _ => Some (default sc0 (scs !! activeScenario s))
    | _, _ => None
    end.

(** The floor behind the solid mounted under key [k]. *)
Definition shown_floor (massingData : MassingData) (s : AppState)
    (k : MeshKey) : option Floor :=
  match shown_scenario massingData s (fst k) with
  | Some sc =>
      match floors sc with
      | Some fls => fls !! snd k
      | None => None
      end
  | None => None
  end.

(** The callbacks the current view wires to its floor solids: the state
    setters in the single view, no-op closures in the comparison view. *)
Definition view_click (s : AppState) : FloorCallback :=
  if comparisonMode s then (fun _ s' => s') else setSelectedFloor.

Definition view_hover (s : AppState) : FloorCallback :=
  if comparisonMode s then (fun _ s' => s') else setHoveredFloor.

(** The [isHovered] prop the current view passes down for floor [f]. *)
Definition view_isHovered (s : AppState) (f : Floor) : bool :=
  if comparisonMode s then false
  else
    match hoveredFloor s with
    | Some h => (floor_num h =? floor_num f)%Z
    | None => false
    end.

(** The floor solid the current view mounts under key [k], from the
    floor behind it. *)
Definition mounted_mesh (massingData : MassingData) (u : UiState)
    (k : MeshKey) : option FloorMeshEl :=
  let s := ui_app u in
  match shown_floor massingData s k with
  | Some f =>
      FloorMesh k f (view_isHovered s f) (view_click s (Some f))
                (fun hovered => view_hover s (if hovered then Some f else None))
                (showFloorLabels s) (bool_decide (k ∈ ui_localHover u))
  | None => None
  end.

(** Two App states that show the same scenarios in the same view. *)
Definition same_view (s s' : AppState) : Prop :=
  activeScenario s' = activeScenario s
  /\ comparisonMode s' = comparisonMode s
  /\ comparisonScenario s' = comparisonScenario s
  /\ showFloorLabels s' = showFloorLabels s.

(** A floor solid drawn highlighted. *)
Definition highlighted (m : FloorMeshEl) : Prop :=
  opacity (fm_solid m) = 0.85%Q /\ fm_emissive m = "#ffffff".

Definition plain (m : FloorMeshEl) : Prop :=
  opacity (fm_solid m) = 1%Q /\ fm_emissive m = "#000000".

(** A footprint the solids are built from: at least three points. *)
Definition solid_footprint (fp : option (list point)) : bool :=
  match fp with
  | Some poly => bool_decide (3 <= length poly)%nat
  | None => false
  end.

(** The points of a flat shape, in the shape's own (x, y) coordinates. *)
Definition shape_points (g : Geometry) : list point :=
  match g with
  | ShapeGeometry path =>
      omap (fun c => match c with
                     | MoveTo p | LineTo p => Some p
                     | ClosePath => None
                     end) path
  | _ => []
  end.

(** [geo.rotateX(-Math.PI / 2)] lays a flat shape on the ground: the
    shape point (x, y) goes to (x, 0, -y). *)
Definition rotateX_flat (p : point) : vec3 := (fst p, 0, - snd p)%Q.

(** The depth ([z]) of a position. *)
Definition depth_of (p : vec3) : Q := snd p.

(** A street edge [LotPlane] draws: at least two points. *)
Definition drawable_edge (e : StreetEdge) : bool :=
  match edge e with
  | Some pts => bool_decide (2 <= length pts)%nat
  | None => false
  end.

(** ** The earlier viewer (MassingViewer.tsx)

    It draws a server-built triangle mesh: [vertices] are [x, y, z] with
    z up, [faces] are triples of vertex indices, [colors] holds one CSS
    color per face. *)

Module OldViewer.

Record MassingGeometry := {
  vertices : option (list vec3);
  faces : option (list (Z * Z * Z));
  colors : option (list string);
}.

(** [verts[a]]: [undefined] outside the array, also for a negative index. *)
Definition vertex_at (verts : list vec3) (a : Z) : option vec3 :=
  if (a <? 0)%Z then None else verts !! Z.to_nat a.

(** [push(v[0], v[2], -v[1])]: y and z change places for Three.js. *)
Definition swapped (v : vec3) : list Q :=
  let '(x, y, z) := v in [ x; z; (- y)%Q ].

Section Triangles.

(** [new THREE.Color(css)], as its [r, g, b]: a library function. *)
Variable parseColor : string -> Q * Q * Q.

Definition rgb (css : string) : list Q :=
  let '(r, g, b) := parseColor css in [ r; g; b ].

(** The loop over [faces], from face number [i] on: a face with an index
    at or beyond [verts.length] is skipped; reading a vertex that is
    [undefined] throws. *)
Fixpoint expand (verts : list vec3) (cols : list string) (i : nat)
    (fcs : list (Z * Z * Z)) : render (list Q * list Q) :=
  match fcs with
  | [] => Rendered ([], [])
  | (a, b, c) :: rest =>
      let len := Z.of_nat (length verts) in
      if ((a >=? len) || (b >=? len) || (c >=? len))%Z
      then expand verts cols (S i) rest
      else
        match vertex_at verts a, vertex_at verts b, vertex_at verts c with
        | Some va, Some vb, Some vc =>
            let color := rgb (or_string (default "" (cols !! i)) "#CCCCCC") in
            match expand verts cols (S i) rest with
            | Rendered (ps, cs) =>
                Rendered (swapped va ++ swapped vb ++ swapped vc ++ ps,
                          color ++ color ++ color ++ cs)
            | TypeError => TypeError
            end
        | _, _, _ => TypeError
        end
  end.

(** The two buffers of [BuildingMesh], or [None] when it renders nothing
    ([positions.length === 0]). *)
Definition BuildingMesh (geometry : option MassingGeometry)
    : render (option (list Q * list Q)) :=
  match geometry with
  | Some g =>
      match vertices g, faces g with
      | Some ((_ :: _) as verts), Some ((_ :: _) as fcs) =>
          match expand verts (default [] (colors g)) 0 fcs with
          | Rendered ([], _) => Rendered None
          | Rendered (ps, cs) => Rendered (Some (ps, cs))
          | TypeError => TypeError
          end
      | _, _ => Rendered None
      end
  | None => Rendered None
  end.

End Triangles.

(** [Scene]: the camera distance from the scenario's height,
    [Math.max(maxH * 2, 200)] with [maxH = max_height_ft || 100], and the
    camera position [camDist * (0.7, 0.5, 0.7)]. *)
Definition cameraPosition (max_height_ft : option Q) : vec3 :=
  let maxH := Js.or_num max_height_ft 100 in
  let camDist := Qmax (maxH * 2) 200 in
  (camDist * 0.7, camDist * 0.5, camDist * 0.7)%Q.

(** A face all of whose indices are below the number of vertices. *)
Definition below (n : nat) (f : Z * Z * Z) : bool :=
  let '(a, b, c) := f in
  ((a <? Z.of_nat n) && (b <? Z.of_nat n) && (c <? Z.of_nat n))%Z.

Definition nonneg (f : Z * Z * Z) : bool :=
  let '(a, b, c) := f in ((0 <=? a) && (0 <=? b) && (0 <=? c))%Z.

End OldViewer.

(** ** The development site of the start page (checkout/page.tsx)

    The list of lots of an assemblage and the operations of [StartPage]
    on it.  The loading flags and the preview are not part of the list
    logic and are left out; an asynchronous handler is modelled by its
    continuation, with the values its closure captured as arguments. *)

Module Assemblage.

Record LotCard := {
  bbl : string;
  address : string;
  lot_area : Q;
  lot_frontage : Q;
  lot_depth : Q;
  zoning_districts : list string;
  bldgarea : Q;
  builtfar : Q;
  numfloors : Q;
  yearbuilt : Q;
  geometry : option string;             (* passed through unread *)
  keepExistingBuilding : bool;
}.

(** An adjacent lot as the server lists it. *)
Record AdjacentLot := {
  adj_bbl : string;
  adj_address : option string;
  adj_lot_area : option Q;
  adj_zoning_districts : option (list string);
  adj_bldgarea : option Q;
  adj_builtfar : option Q;
  adj_numfloors : option Q;
  adj_yearbuilt : option Q;
  adj_geometry : option string;
}.

(** The answer of the address lookup. *)
Record LookupData := {
  lk_bbl : string;
  lk_address : option string;
  lk_lot_area : option Q;
  lk_lot_frontage : option Q;
  lk_lot_depth : option Q;
  lk_zoning_districts : option (list string);
  lk_bldgarea : option Q;
  lk_builtfar : option Q;
  lk_numfloors : option Q;
  lk_yearbuilt : option Q;
  lk_geometry : option string;
}.

Inductive PageStep := StepSearch | StepBuild | StepPreview.

Record PageState := {
  step : PageStep;
  searchQuery : string;
  searchError : string;
  lots : list LotCard;
  adjacentLots : list AdjacentLot;
  adjacentOpen : bool;
}.

Definition bbls (ls : list LotCard) : list string := map bbl ls.

(** [lots.some((l) => l.bbl === b)]. *)
Definition has_bbl (b : string) (ls : list LotCard) : bool :=
  existsb (fun l => String.eqb (bbl l) b) ls.

(** The continuation of [handleSearch] after a successful lookup;
    [lots0] and [query0] are the [lots] and [searchQuery] its closure
    holds. *)
Definition lookupResolved (lots0 : list LotCard) (query0 : string)
    (data : LookupData) (st : PageState) : PageState :=
  if has_bbl (lk_bbl data) lots0 then
    {| step := step st; searchQuery := searchQuery st;
       searchError := "This property is already in your development site.";
       lots := lots st; adjacentLots := adjacentLots st;
       adjacentOpen := adjacentOpen st |}
  else
    let newLot :=
      {| bbl := lk_bbl data;
         address := or_string (default "" (lk_address data)) query0;
         lot_area := Js.or_num (lk_lot_area data) 0;
         lot_frontage := Js.or_num (lk_lot_frontage data) 0;
         lot_depth := Js.or_num (lk_lot_depth data) 0;
         zoning_districts := default [] (lk_zoning_districts data);
         bldgarea := Js.or_num (lk_bldgarea data) 0;
         builtfar := Js.or_num (lk_builtfar data) 0;
         numfloors := Js.or_num (lk_numfloors data) 0;
         yearbuilt := Js.or_num (lk_yearbuilt data) 0;
         geometry := lk_geometry data;
         keepExistingBuilding := false |} in
    {| step := StepBuild; searchQuery := ""; searchError := "";
       lots := lots st ++ [ newLot ]; adjacentLots := adjacentLots st;
       adjacentOpen := adjacentOpen st |}.

(** The synchronous start of [loadAdjacentLots]: with an empty site it
    returns at once; otherwise it opens the adjacent panel, before the
    request is sent. *)
Definition loadAdjacentLotsStart (st : PageState) : PageState :=
  match lots st with
  | [] => st
  | _ :: _ =>
      {| step := step st; searchQuery := searchQuery st;
         searchError := searchError st; lots := lots st;
         adjacentLots := adjacentLots st; adjacentOpen := true |}
  end.

(** The continuation of [loadAdjacentLots] after the server answered with
    [adjacent_lots]: the lots already in the site ([lots0], as captured)
    are filtered out.  Only the adjacent list is written. *)
Definition adjacentResolved (lots0 : list LotCard)
    (adjacent_lots : option (list AdjacentLot)) (st : PageState) : PageState :=
  {| step := step st; searchQuery := searchQuery st;
     searchError := searchError st; lots := lots st;
     adjacentLots :=
       filter (fun a => has_bbl (adj_bbl a) lots0 = false)
              (default [] adjacent_lots);
     adjacentOpen := adjacentOpen st |}.

Definition addAdjacentLot (adj : AdjacentLot) (st : PageState) : PageState :=
  let newLot :=
    {| bbl := adj_bbl adj;
       address := default "" (adj_address adj);
       lot_area := Js.or_num (adj_lot_area adj) 0;
       lot_frontage := 0;
       lot_depth := 0;
       zoning_districts := default [] (adj_zoning_districts adj);
       bldgarea := Js.or_num (adj_bldgarea adj) 0;
       builtfar := Js.or_num (adj_builtfar adj) 0;
       numfloors := Js.or_num (adj_numfloors adj) 0;
       yearbuilt := Js.or_num (adj_yearbuilt adj) 0;
       geometry := adj_geometry adj;
       keepExistingBuilding := false |} in
  {| step := step st; searchQuery := searchQuery st;
     searchError := searchError st;
     lots := lots st ++ [ newLot ];
     adjacentLots :=
       filter (fun a => adj_bbl a <> adj_bbl adj) (adjacentLots st);
     adjacentOpen := false |}.

Definition removeLot (b : string) (st : PageState) : PageState :=
  {| step := if (length (lots st) <=? 1)%nat then StepSearch else step st;
     searchQuery := searchQuery st; searchError := searchError st;
     lots := filter (fun l => bbl l <> b) (lots st);
     adjacentLots := adjacentLots st; adjacentOpen := adjacentOpen st |}.

Definition toggled (l : LotCard) : LotCard :=
  {| bbl := bbl l; address := address l; lot_area := lot_area l;
     lot_frontage := lot_frontage l; lot_depth := lot_depth l;
     zoning_districts := zoning_districts l; bldgarea := bldgarea l;
     builtfar := builtfar l; numfloors := numfloors l;
     yearbuilt := yearbuilt l; geometry := geometry l;
     keepExistingBuilding := negb (keepExistingBuilding l) |}.

Definition toggleKeepBuilding (b : string) (st : PageState) : PageState :=
  {| step := step st; searchQuery := searchQuery st;
     searchError := searchError st;
     lots := map (fun l => if String.eqb (bbl l) b then toggled l else l)
                 (lots st);
     adjacentLots := adjacentLots st; adjacentOpen := adjacentOpen st |}.

(** [lots.some((l) => !l.keepExistingBuilding)]. *)
Definition hasAtLeastOneDevelopment (ls : list LotCard) : bool :=
  existsb (fun l => negb (keepExistingBuilding l)) ls.

(** [lots.reduce((s, l) => s + l.lot_area, 0)]. *)
Definition totalLotArea (ls : list LotCard) : Q :=
  foldl (fun s l => (s + lot_area l)%Q) 0%Q ls.

Definition totalKeptArea (ls : list LotCard) : Q :=
  foldl (fun s l => (s + bldgarea l)%Q) 0%Q
        (filter (fun l => keepExistingBuilding l = true) ls).

(** A sample site of two lots, an adjacent lot and a lookup answer. *)
Definition lot_a : LotCard :=
  {| bbl := "1000010001"; address := "1 Main St"; lot_area := 2500;
     lot_frontage := 25; lot_depth := 100; zoning_districts := [ "R6" ];
     bldgarea := 4000; builtfar := 1.6; numfloors := 3; yearbuilt := 1920;
     geometry := None; keepExistingBuilding := true |}.

Definition lot_b : LotCard :=
  {| bbl := "1000010002"; address := "3 Main St"; lot_area := 2000;
     lot_frontage := 20; lot_depth := 100; zoning_districts := [ "R6" ];
     bldgarea := 0; builtfar := 0; numfloors := 0; yearbuilt := 0;
     geometry := None; keepExistingBuilding := false |}.

Definition site_ab : PageState :=
  {| step := StepBuild; searchQuery := ""; searchError := "";
     lots := [ lot_a; lot_b ]; adjacentLots := []; adjacentOpen := false |}.

Definition adjacent_c : AdjacentLot :=
  {| adj_bbl := "1000010003"; adj_address := None;
     adj_lot_area := Some 1800%Q; adj_zoning_districts := None;
     adj_bldgarea := None; adj_builtfar := None; adj_numfloors := None;
     adj_yearbuilt := None; adj_geometry := None |}.

Definition lookup_b : LookupData :=
  {| lk_bbl := "1000010002"; lk_address := None; lk_lot_area := Some 2000%Q;
     lk_lot_frontage := None; lk_lot_depth := None;
     lk_zoning_districts := None; lk_bldgarea := None; lk_builtfar := None;
     lk_numfloors := None; lk_yearbuilt := None; lk_geometry := None |}.

End Assemblage.

(** * Properties *)

(** ** Numbers and defaults *)

Section JsFacts.
Local Open Scope Q_scope.

Lemma ltb_lt (a b : Q) : Js.ltb a b = true <-> a < b.
Proof.
  unfold Js.ltb. rewrite negb_true_iff, <- not_true_iff_false, Qle_bool_iff.
  split; [apply Qnot_le_lt | apply Qlt_not_le].
Qed.

Lemma ltb_ge (a b : Q) : Js.ltb a b = false <-> b <= a.
Proof.
  unfold Js.ltb. rewrite negb_false_iff. apply Qle_bool_iff.
Qed.

Lemma truthy_iff (q : Q) : Js.truthy q = true <-> ~ q == 0.
Proof.
  unfold Js.truthy.
  rewrite negb_true_iff, <- not_true_iff_false, Qeq_bool_iff. tauto.
Qed.

Lemma or_num_falsy (v : option Q) (d : Q) : falsy v -> Js.or_num v d = d.
Proof.
  destruct v as [q|]; simpl; [|done].
  intros Hq. destruct (Js.truthy q) eqn:Ht; [|done].
  apply truthy_iff in Ht. contradiction.
Qed.

Lemma or_num_given (q d : Q) : ~ q == 0 -> Js.or_num (Some q) d = q.
Proof.
  intros Hq. simpl. apply truthy_iff in Hq. by rewrite Hq.
Qed.

Lemma or_num_cases (v : option Q) (d : Q) :
  (falsy v /\ Js.or_num v d = d)
  \/ (exists q, v = Some q /\ ~ q == 0 /\ Js.or_num v d = q).
Proof.
  destruct v as [q|]; simpl; [|by left].
  destruct (Js.truthy q) eqn:Ht.
  - right. exists q. by rewrite <- truthy_iff.
  - left. split; [|done].
    destruct (Qeq_dec q 0) as [?|Hn]; [done|].
    apply truthy_iff in Hn. congruence.
Qed.


(** On a strictly ordered pair, [Qmin] and [Qmax] pick their arguments
    as they stand. *)
Lemma Qmin_lt_l (a b : Q) : a < b -> Qmin a b = a.
Proof.
  intros H. unfold Qmin, GenericMinMax.gmin.
  by rewrite (proj1 (Qlt_alt a b) H).
Qed.

Lemma Qmax_lt_r (a b : Q) : a < b -> Qmax a b = b.
Proof.
  intros H. unfold Qmax, GenericMinMax.gmax.
  by rewrite (proj1 (Qlt_alt a b) H).
Qed.


End JsFacts.

(** ** Zoning envelope projector *)

Section EnvelopeFacts.
Local Open Scope Q_scope.

Lemma env_base_shown (e : Envelope) (l : Lot) :
  0 < env_baseH e -> env_baseH e < env_maxH e ->
  env_base (ZoningEnvelope e l)
  = Some ({| geometry := PlaneGeometry (lot_w l + 4) (lot_d l + 4);
             position := (lot_w l / 2, env_baseH e, lot_d l / 2);
             color := "#6BBF6B"; opacity := 0.06 |},
          {| points := [ (0, env_baseH e, 0); (lot_w l, env_baseH e, 0);
                         (lot_w l, env_baseH e, lot_d l);
                         (0, env_baseH e, lot_d l); (0, env_baseH e, 0) ];
             line_color := "#6BBF6B"; lineWidth := 1;
             dashed := Some (2, 2); line_opacity := None |}).
Proof.
  intros H0 H1. apply ltb_lt in H0, H1.
  unfold ZoningEnvelope, env_baseH, env_maxH in *; simpl.
  by rewrite H0, H1.
Qed.

Lemma env_base_hidden (e : Envelope) (l : Lot) :
  env_baseH e <= 0 \/ env_maxH e <= env_baseH e ->
  env_base (ZoningEnvelope e l) = None.
Proof.
  intros H. unfold ZoningEnvelope, env_baseH, env_maxH in *; simpl.
  destruct H as [H|H]; apply ltb_ge in H; rewrite H; [done|].
  by rewrite andb_false_r.
Qed.

Lemma env_base_is_Some (e : Envelope) (l : Lot) :
  is_Some (env_base (ZoningEnvelope e l))
  <-> 0 < env_baseH e /\ env_baseH e < env_maxH e.
Proof.
  split.
  - intros Hs.
    destruct (Qlt_le_dec 0 (env_baseH e)) as [H0|H0];
      [destruct (Qlt_le_dec (env_baseH e) (env_maxH e)) as [H1|H1]|];
      [done| |];
      rewrite env_base_hidden in Hs by auto; by destruct Hs.
  - intros [H0 H1]. rewrite env_base_shown by done. eauto.
Qed.

Lemma env_base_no_base_height (e : Envelope) (l : Lot) :
  base_height_max_ft e = None ->
  (is_Some (env_base (ZoningEnvelope e l)) <-> 60 < env_maxH e).
Proof.
  intros Hb. rewrite env_base_is_Some.
  unfold env_baseH. rewrite Hb. simpl.
  split; [tauto|]. intros H. split; [by apply ltb_lt|done].
Qed.

(** C1, amended: the base-height boundary is drawn exactly when
    [0 < baseH < maxH] for the effective heights
    [baseH = base_height_max_ft || 60] and [maxH = max_height_ft || 100].
    When drawn it is the translucent plane and its border at elevation
    [baseH]; a base height given and at or above a given max height never
    draws it, and a missing base height draws it at 60 whenever
    [60 < maxH]. *)
Theorem base_boundary_rendering (e : Envelope) (l : Lot) :
  (is_Some (env_base (ZoningEnvelope e l))
   <-> 0 < env_baseH e /\ env_baseH e < env_maxH e)
  /\ (forall plane border,
        env_base (ZoningEnvelope e l) = Some (plane, border) ->
        elevation_of (position plane) = env_baseH e
        /\ Forall (fun p => elevation_of p = env_baseH e) (points border))
  /\ (forall b m,
        base_height_max_ft e = Some b -> max_height_ft e = Some m ->
        ~ m == 0 -> m <= b ->
        env_base (ZoningEnvelope e l) = None)
  /\ (base_height_max_ft e = None ->
      (is_Some (env_base (ZoningEnvelope e l)) <-> 60 < env_maxH e)).
Proof.
  split; [apply env_base_is_Some|]. split; [|split].
  - intros plane border Hb.
    assert (Hs : is_Some (env_base (ZoningEnvelope e l))) by eauto.
    apply env_base_is_Some in Hs as [H0 H1].
    rewrite env_base_shown in Hb by done.
    injection Hb as <- <-. split; [done|].
    repeat constructor.
  - intros b m Hb Hm Hm0 Hle. apply env_base_hidden.
    unfold env_baseH, env_maxH. rewrite Hb, Hm, (or_num_given m) by done.
    destruct (or_num_cases (Some b) 60) as [[Hf ->]|(q & [= <-] & _ & ->)].
    + simpl in Hf. right. rewrite Hf in Hle.
      apply Qle_trans with 0; [done|]. by apply Qle_bool_iff.
    + by right.
  - apply env_base_no_base_height.
Qed.

(** C1, as stated, fails: with no base height and a max height of 100
    the base-height plane and border are drawn, at elevation 60. *)
Lemma base_boundary_absent_base_drawn :
  base_height_max_ft Examples.env_no_base = None
  /\ ~ spec_base_shown Examples.env_no_base
  /\ exists plane border,
       env_base (ZoningEnvelope Examples.env_no_base Examples.lot_50x100)
       = Some (plane, border)
       /\ elevation_of (position plane) = 60.
Proof.
  split; [reflexivity|]. split.
  - intros (b & m & Hb & _). discriminate Hb.
  - eexists _, _. split; reflexivity.
Qed.

Lemma env_verticals_spec (e : Envelope) (l : Lot) :
  map points (env_verticals (ZoningEnvelope e l))
  = [ [ (0, 0, 0); (0, env_maxH e, 0) ];
      [ (lot_w l, 0, 0); (lot_w l, env_maxH e, 0) ];
      [ (lot_w l, 0, lot_d l); (lot_w l, env_maxH e, lot_d l) ];
      [ (0, 0, lot_d l); (0, env_maxH e, lot_d l) ] ].
Proof. reflexivity. Qed.

Lemma env_setback_shown (e : Envelope) (l : Lot) x0 z0 p1 rest :
  setback_line e = Some ((x0, z0) :: p1 :: rest) ->
  setback_points (ZoningEnvelope e l)
  = Some (map (fun '(x, z) => (x, 0.2, z)) ((x0, z0) :: p1 :: rest),
          map (fun '(x, z) => (x, env_baseH e, z)) ((x0, z0) :: p1 :: rest),
          [ (x0, 0.2, z0); (x0, env_baseH e, z0) ]).
Proof.
  intros Hs. unfold setback_points, ZoningEnvelope, env_baseH; simpl.
  rewrite Hs. reflexivity.
Qed.

(** C2, amended: for an envelope with a setback line of at least two
    points and no base height, the projector draws the max-height plane
    at [maxH], the four vertical corner edges from grade to [maxH], the
    setback line at grade (y = 0.2), and also the setback line at the
    default base height 60 with its riser at the first vertex; the
    base-height plane is drawn at 60 exactly when [60 < maxH]. *)
Theorem setback_without_base_height (e : Envelope) (l : Lot)
    (sl : list point) :
  setback_line e = Some sl -> (2 <= length sl)%nat ->
  base_height_max_ft e = None ->
  elevation_of (position (env_top_plane (ZoningEnvelope e l))) = env_maxH e
  /\ map points (env_verticals (ZoningEnvelope e l))
     = [ [ (0, 0, 0); (0, env_maxH e, 0) ];
         [ (lot_w l, 0, 0); (lot_w l, env_maxH e, 0) ];
         [ (lot_w l, 0, lot_d l); (lot_w l, env_maxH e, lot_d l) ];
         [ (0, 0, lot_d l); (0, env_maxH e, lot_d l) ] ]
  /\ (exists x0 z0 tl,
        sl = (x0, z0) :: tl
        /\ setback_points (ZoningEnvelope e l)
           = Some (map (fun '(x, z) => (x, 0.2, z)) sl,
                   map (fun '(x, z) => (x, 60, z)) sl,
                   [ (x0, 0.2, z0); (x0, 60, z0) ]))
  /\ (is_Some (env_base (ZoningEnvelope e l)) <-> 60 < env_maxH e)
  /\ (forall plane border,
        env_base (ZoningEnvelope e l) = Some (plane, border) ->
        elevation_of (position plane) = 60
        /\ Forall (fun p => elevation_of p = 60) (points border)).
Proof.
  intros Hs Hlen Hb. split; [reflexivity|].
  split; [apply env_verticals_spec|]. split; [|split].
  - destruct sl as [|[x0 z0] [|p1 rest]]; simpl in Hlen; [lia|lia|].
    exists x0, z0, (p1 :: rest). split; [done|].
    rewrite (env_setback_shown e l x0 z0 p1 rest Hs).
    unfold env_baseH. by rewrite Hb.
  - by apply env_base_no_base_height.
  - intros plane border Hbase.
    assert (Hsome : is_Some (env_base (ZoningEnvelope e l))) by eauto.
    apply env_base_is_Some in Hsome as [H0 H1].
    rewrite env_base_shown in Hbase by done.
    injection Hbase as <- <-.
    assert (H60 : env_baseH e = 60) by (unfold env_baseH; by rewrite Hb).
    rewrite H60. split; [done|]. repeat constructor.
Qed.

Lemma setback_without_base_height_witness :
  setback_line Examples.env_no_base = Some [ (10, 0); (10, 70) ]
  /\ setback_points (ZoningEnvelope Examples.env_no_base Examples.lot_50x100)
     = Some ([ (10, 0.2, 0); (10, 0.2, 70) ],
             [ (10, 60, 0); (10, 60, 70) ],
             [ (10, 0.2, 0); (10, 60, 0) ]).
Proof.
  split; [reflexivity|].
  destruct (setback_without_base_height Examples.env_no_base
              Examples.lot_50x100 [ (10, 0); (10, 70) ])
    as (_ & _ & (x0 & z0 & tl & Hsl & Hpts) & _);
    [reflexivity | simpl; lia | reflexivity |].
  injection Hsl as <- <- <-. exact Hpts.
Defined.

(** C2, as stated, fails: with a two-point setback line, max height 100
    and no base height, the setback line is also drawn at elevation 60
    and the base-height plane is drawn. *)
Lemma setback_without_base_height_still_drawn :
  base_height_max_ft Examples.env_no_base = None
  /\ (exists atGrade atBase riser,
        env_setback (ZoningEnvelope Examples.env_no_base Examples.lot_50x100)
        = Some (atGrade, atBase, riser)
        /\ points atBase = [ (10, 60, 0); (10, 60, 70) ])
  /\ is_Some (env_base (ZoningEnvelope Examples.env_no_base
                                       Examples.lot_50x100)).
Proof.
  split; [reflexivity|]. split.
  - eexists _, _, _. split; reflexivity.
  - eexists. reflexivity.
Qed.

Lemma base_boundary_rendering_witness :
  is_Some (env_base (ZoningEnvelope Examples.env_demo Examples.lot_50x100))
  /\ env_base (ZoningEnvelope
                 {| max_height_ft := Some 95; base_height_max_ft := Some 95;
                    setback_line := None; sky_exposure_plane := None |}
                 Examples.lot_50x100) = None.
Proof.
  split.
  - apply (proj1 (base_boundary_rendering Examples.env_demo
                    Examples.lot_50x100)).
    split; reflexivity.
  - apply (proj1 (proj2 (proj2 (base_boundary_rendering _ Examples.lot_50x100)))
             95 95); try reflexivity; discriminate.
Defined.

End EnvelopeFacts.

(** ** Sky exposure plane *)

Section SkyExposureFacts.
Local Open Scope Q_scope.




End SkyExposureFacts.

(** ** Massing builder *)

Section BuildingFacts.
Local Open Scope Q_scope.

Context (key : MeshKey) (isHovered : bool)
        (onClick : AppState -> AppState)
        (onHover : bool -> AppState -> AppState)
        (showLabel localHover : bool).

(** The guard [!poly || poly.length < 3] of the two solids. *)
Lemma FloorMesh_is_Some (f : Floor) :
  is_Some (FloorMesh key f isHovered onClick onHover showLabel localHover)
  <-> exists poly, footprint f = Some poly /\ (3 <= length poly)%nat.
Proof.
  unfold FloorMesh. split.
  - destruct (footprint f) as [[|p0 [|p1 [|p2 rest]]]|];
      intros [e He]; try discriminate He.
    eexists. split; [reflexivity | simpl; lia].
  - intros (poly & -> & Hlen).
    destruct poly as [|p0 [|p1 [|p2 rest]]]; simpl in Hlen; try lia.
    eauto.
Qed.

Lemma BulkheadMesh_is_Some (b : Bulkhead) :
  is_Some (BulkheadMesh b)
  <-> exists poly, bh_footprint b = Some poly /\ (3 <= length poly)%nat.
Proof.
  unfold BulkheadMesh. split.
  - destruct (bh_footprint b) as [[|p0 [|p1 [|p2 rest]]]|];
      intros [e He]; try discriminate He.
    eexists. split; [reflexivity | simpl; lia].
  - intros (poly & -> & Hlen).
    destruct poly as [|p0 [|p1 [|p2 rest]]]; simpl in Hlen; try lia.
    eauto.
Qed.

Lemma FloorMesh_shape (f : Floor) (e : FloorMeshEl) :
  FloorMesh key f isHovered onClick onHover showLabel localHover = Some e ->
  exists p0 rest,
    footprint f = Some (p0 :: rest)
    /\ geometry (fm_solid e)
       = ExtrudeGeometry (shape_path p0 rest) (height_ft f - FLOOR_GAP)
    /\ fm_position e = (0, elevation_ft f + FLOOR_GAP / 2, 0)
    /\ color (fm_solid e) = baseColor (use f).
Proof.
  unfold FloorMesh.
  destruct (footprint f) as [[|p0 [|p1 [|p2 rest]]]|]; try discriminate.
  intros [= <-]. by exists p0, (p1 :: p2 :: rest).
Qed.

(** C3: a floor with a footprint of at least three points and
    [height_ft > FLOOR_GAP] (0.3) is rendered as one solid: its footprint
    extruded by exactly [height_ft - FLOOR_GAP], with its base at exactly
    [elevation_ft + FLOOR_GAP / 2], so that it spans a proper interval of
    that length; a single floor of height 15 at elevation 0 yields exactly
    one solid, of vertical extent [0.15, 14.85]. *)
Theorem floor_extrusion :
  (forall (f : Floor) (poly : list point),
     footprint f = Some poly -> (3 <= length poly)%nat ->
     FLOOR_GAP < height_ft f ->
     exists e p0 rest,
       FloorMesh key f isHovered onClick onHover showLabel localHover = Some e
       /\ poly = p0 :: rest
       /\ geometry (fm_solid e)
          = ExtrudeGeometry (shape_path p0 rest) (height_ft f - FLOOR_GAP)
       /\ fm_position e = (0, elevation_ft f + FLOOR_GAP / 2, 0)
       /\ extent e = (elevation_ft f + FLOOR_GAP / 2,
                      elevation_ft f + FLOOR_GAP / 2
                      + (height_ft f - FLOOR_GAP))
       /\ fst (extent e) < snd (extent e)
       /\ snd (extent e) - fst (extent e) == height_ft f - FLOOR_GAP)
  /\ (forall group hover cbClick cbHover hovered labels,
        exists e,
          BuildingMesh group hover (Some Examples.scenario_one_floor)
                       cbClick cbHover hovered labels
          = Some {| bm_floors := [ Some e ]; bm_bulkhead := None |}
          /\ fst (extent e) == 0.15 /\ snd (extent e) == 14.85).
Proof.
  split.
  - intros f poly Hfp Hlen Hgap.
    destruct (proj2 (FloorMesh_is_Some f)) as [e He]; [eauto|].
    destruct (FloorMesh_shape f e He) as (p0 & rest & Hfp' & Hgeo & Hpos & _).
    exists e, p0, rest. split; [done|].
    split; [congruence|]. split; [done|]. split; [done|].
    assert (Hlt : elevation_ft f + FLOOR_GAP / 2
                  < elevation_ft f + FLOOR_GAP / 2
                    + (height_ft f - FLOOR_GAP)).
    { rewrite <- (Qplus_0_r (elevation_ft f + FLOOR_GAP / 2)) at 1.
      apply Qplus_lt_r. by apply Qlt_minus_iff in Hgap. }
    assert (Hext : extent e
                   = (elevation_ft f + FLOOR_GAP / 2,
                      elevation_ft f + FLOOR_GAP / 2
                      + (height_ft f - FLOOR_GAP))).
    { unfold extent. rewrite Hgeo, Hpos. cbn [fst snd].
      by rewrite (Qmin_lt_l _ _ Hlt), (Qmax_lt_r _ _ Hlt). }
    rewrite Hext. cbn [fst snd]. split; [done|]. split; [exact Hlt|ring].
  - intros group hover cbClick cbHover hovered labels.
    eexists. split; [reflexivity|]. split; reflexivity.
Qed.

End BuildingFacts.

Section DegenerateFacts.
Local Open Scope Q_scope.

Lemma FloorMesh_degenerate key (f : Floor) isHovered onClick onHover
    showLabel localHover (poly : list point) :
  footprint f = Some poly -> (length poly < 3)%nat ->
  FloorMesh key f isHovered onClick onHover showLabel localHover = None.
Proof.
  intros Hfp Hlen.
  destruct (FloorMesh key f isHovered onClick onHover showLabel localHover)
    as [e|] eqn:He; [|done].
  destruct (proj1 (FloorMesh_is_Some key isHovered onClick onHover showLabel
                     localHover f)) as (poly' & Hfp' & Hlen'); [eauto|].
  rewrite Hfp in Hfp'. injection Hfp' as <-. lia.
Qed.

Lemma BulkheadMesh_degenerate (b : Bulkhead) (poly : list point) :
  bh_footprint b = Some poly -> (length poly < 3)%nat ->
  BulkheadMesh b = None.
Proof.
  intros Hfp Hlen.
  destruct (BulkheadMesh b) as [e|] eqn:He; [|done].
  destruct (proj1 (BulkheadMesh_is_Some b)) as (poly' & Hfp' & Hlen');
    [eauto|].
  rewrite Hfp in Hfp'. injection Hfp' as <-. lia.
Qed.

Lemma LotPlane_degenerate (l : Lot) (showSetbacks : bool)
    (poly : list point) :
  polygon l = Some poly -> (length poly < 3)%nat ->
  points (lot_boundary (LotPlane l showSetbacks)) = fallback_boundary l
  /\ geometry (lot_fill (LotPlane l showSetbacks)) = fallback_fill l.
Proof.
  intros Hp Hlen. unfold LotPlane, fallback_boundary, fallback_fill; simpl.
  rewrite Hp; simpl.
  destruct poly as [|[x0 z0] [|p1 [|p2 rest]]]; simpl in Hlen;
    try lia; done.
Qed.

(** C7, amended: for a polygon with fewer than three points the floor
    builder and the bulkhead builder produce no element (the solid is
    skipped; both are total, nothing is raised), while the lot plane does
    draw: its boundary and fill fall back to the frontage-by-depth
    rectangle. *)
Theorem degenerate_polygon_handling (poly : list point) :
  (length poly < 3)%nat ->
  (forall key f isHovered onClick onHover showLabel localHover,
     footprint f = Some poly ->
     FloorMesh key f isHovered onClick onHover showLabel localHover = None)
  /\ (forall b, bh_footprint b = Some poly -> BulkheadMesh b = None)
  /\ (forall l showSetbacks,
        polygon l = Some poly ->
        points (lot_boundary (LotPlane l showSetbacks)) = fallback_boundary l
        /\ geometry (lot_fill (LotPlane l showSetbacks)) = fallback_fill l).
Proof.
  intros Hlen. split; [|split].
  - intros. by eapply FloorMesh_degenerate.
  - intros. by eapply BulkheadMesh_degenerate.
  - intros. by eapply LotPlane_degenerate.
Qed.

Lemma degenerate_polygon_handling_witness :
  FloorMesh (0%nat, 0%nat) Examples.floor_degenerate false id (fun _ => id)
            false false = None
  /\ BulkheadMesh {| bh_footprint := Some [ (0, 0); (50, 0) ];
                     bh_height_ft := 15; bh_elevation_ft := 85 |} = None
  /\ points (lot_boundary (LotPlane Examples.lot_two_points false))
     = fallback_boundary Examples.lot_two_points.
Proof.
  destruct (degenerate_polygon_handling [ (0, 0); (50, 0) ])
    as (Hf & Hb & Hl); [simpl; lia|].
  split; [by apply Hf|]. split; [by apply Hb|].
  by apply (Hl Examples.lot_two_points false).
Defined.

(** C7, as stated, fails for the lot: a lot polygon of two points still
    yields a five-point boundary line and a filled rectangle. *)
Lemma lot_two_points_still_drawn :
  polygon Examples.lot_two_points = Some [ (0, 0); (50, 0) ]
  /\ points (lot_boundary (LotPlane Examples.lot_two_points false))
     = [ (0, 0.15, 0); (50, 0.15, 0); (50, 0.15, 100); (0, 0.15, 100);
         (0, 0.15, 0) ]
  /\ geometry (lot_fill (LotPlane Examples.lot_two_points false))
     = ShapeGeometry [ MoveTo (0, 0); LineTo (50, 0); LineTo (50, 100);
                       LineTo (0, 100); ClosePath ].
Proof. repeat split. Qed.

End DegenerateFacts.

(** ** Floor colors *)

Section ColorFacts.

Lemma USE_COLORS_outside (u : string) :
  u ∉ enumerated_uses -> USE_COLORS !! u = None.
Proof.
  unfold enumerated_uses, USE_COLORS. intros Hu.
  repeat (rewrite lookup_insert_ne; [|intros <-; apply Hu; set_solver]).
  apply lookup_empty.
Qed.

Lemma not_enumerated_constructor : "constructor" ∉ enumerated_uses.
Proof.
  unfold enumerated_uses. intros Hin.
  repeat (apply elem_of_cons in Hin as [Hin|Hin]; [discriminate Hin|]).
  by apply elem_of_nil in Hin.
Qed.

(** The lookup on a name inherited from [Object.prototype] finds that
    member: no own key of the palette shadows it. *)
Lemma baseColor_inherited (u : string) :
  u ∈ Object_prototype_members -> baseColor u = Inherited u.
Proof.
  unfold Object_prototype_members. intros Hu.
  repeat (apply elem_of_cons in Hu as [->|Hu]; [by vm_compute|]).
  by apply elem_of_nil in Hu.
Qed.

(** The palette: each enumerated use has its fixed entry; a value that is
    neither enumerated nor a name inherited from [Object.prototype] gets
    the neutral gray [#cccccc]; the floor solid is given [baseColor] of
    the floor's use. *)
Lemma floor_color_palette :
  baseColor "commercial" = "#4A90D9"
  /\ baseColor "residential" = "#F5E6CC"
  /\ baseColor "community_facility" = "#6BBF6B"
  /\ baseColor "parking" = "#999999"
  /\ baseColor "mechanical" = "#777777"
  /\ baseColor "cellar" = "#777777"
  /\ baseColor "core" = "#555555"
  /\ (forall u, u ∉ enumerated_uses -> u ∉ Object_prototype_members ->
        baseColor u = "#cccccc")
  /\ (forall key f isHovered onClick onHover showLabel localHover e,
        FloorMesh key f isHovered onClick onHover showLabel localHover
        = Some e ->
        color (fm_solid e) = baseColor (use f)).
Proof.
  do 7 (split; [by vm_compute|]). split.
  - intros u Hu Hp. unfold baseColor. rewrite USE_COLORS_outside by done.
    by rewrite bool_decide_eq_false_2.
  - intros key f isHovered onClick onHover showLabel localHover e He.
    by destruct (FloorMesh_shape _ _ _ _ _ _ _ _ He) as (? & ? & _ & _ & _ & ?).
Qed.

(** C9, at the failing input: the use ["constructor"] is outside the
    enumeration, yet its color is not the neutral gray.  The lookup
    [USE_COLORS["constructor"]] finds the member of that name inherited
    from [Object.prototype]; it is truthy, so [|| '#cccccc'] keeps it,
    and the floor solid is given that member as its color. *)
Theorem floor_color_inherited_name :
  ("constructor" ∉ enumerated_uses)
  /\ baseColor "constructor" = Inherited "constructor"
  /\ baseColor "constructor" <> Css "#cccccc"
  /\ (exists e,
        FloorMesh (0, 0)%nat Examples.floor_constructor false id (fun _ => id)
                  false false = Some e
        /\ color (fm_solid e) = Inherited "constructor"
        /\ color (fm_solid e) <> Css "#cccccc").
Proof.
  split; [exact not_enumerated_constructor|].
  split; [by vm_compute|]. split; [by vm_compute|].
  eexists. split; [reflexivity|]. split; by vm_compute.
Qed.

End ColorFacts.

(** ** Defaults of the envelope projector *)

Section DefaultFacts.
Local Open Scope Q_scope.




End DefaultFacts.

(** ** Interaction and selection state *)

Section InteractionFacts.

Lemma liftApp_id (u : UiState) : liftApp (fun s => s) u = u.
Proof. by destruct u. Qed.

(** The handlers of a mounted floor solid, in terms of its props. *)
Lemma FloorMesh_handlers key f isHovered onClick onHover showLabel
    localHover e :
  FloorMesh key f isHovered onClick onHover showLabel localHover = Some e ->
  fm_onClick e = liftApp onClick
  /\ fm_onPointerEnter e
     = (fun u => setCursor "pointer"
                   (liftApp (onHover true) (setLocalHover key true u)))
  /\ fm_onPointerLeave e
     = (fun u => setCursor "default"
                   (liftApp (onHover false) (setLocalHover key false u))).
Proof.
  unfold FloorMesh.
  destruct (footprint f) as [[|p0 [|p1 [|p2 rest]]]|]; try discriminate.
  by intros [= <-].
Qed.

(** A floor solid of a building wired with no-op callbacks leaves the
    App state alone, whatever the pointer does. *)
Lemma BuildingMesh_noop group hover sc hovered labels b idx e :
  BuildingMesh group hover sc (Some (fun _ s => s)) (Some (fun _ s => s))
               hovered labels = Some b ->
  bm_floors b !! idx = Some (Some e) ->
  forall u, fm_onClick e u = u
            /\ ui_app (fm_onPointerEnter e u) = ui_app u
            /\ ui_app (fm_onPointerLeave e u) = ui_app u.
Proof.
  unfold BuildingMesh. destruct sc as [sc|]; [|discriminate].
  destruct (floors sc) as [fls|]; [|discriminate].
  intros [= <-]; simpl. rewrite list_lookup_imap.
  destruct (fls !! idx) as [f|]; [|discriminate]. simpl. intros [= He].
  apply FloorMesh_handlers in He as (-> & -> & ->).
  intros u. split; [apply liftApp_id|]. by split.
Qed.

Lemma App_scene_comparison data u c :
  App_scene data u = Some (Comparison c) ->
  comparisonMode (ui_app u) = true
  /\ ComparisonView (ui_localHover u) data (activeScenario (ui_app u))
       (comparisonScenario (ui_app u)) (showEnvelope (ui_app u))
       (showLotBoundary (ui_app u)) (showSetbacks (ui_app u))
       (showFloorLabels (ui_app u)) = Some c.
Proof.
  unfold App_scene. destruct (scenarios data) as [|sc0 scs] eqn:Hs;
    [discriminate|].
  destruct (comparisonMode (ui_app u));
    [|cbv zeta; by destruct (ms_street_label _)].
  destruct (ComparisonView _ _ _ _ _ _ _ _) as [c'|]; [|discriminate].
  by intros [= <-].
Qed.

Lemma App_scene_mode data u sc :
  App_scene data u = Some sc ->
  comparisonMode (ui_app u) = true ->
  exists c, sc = Comparison c.
Proof.
  unfold App_scene. destruct (scenarios data) as [|sc0 scs]; [discriminate|].
  intros Hsc Hm. rewrite Hm in Hsc.
  destruct (ComparisonView _ _ _ _ _ _ _ _) as [c|]; [|discriminate].
  injection Hsc as <-. eauto.
Qed.

Lemma ComparisonView_buildings hover data a b se sl ss sf c :
  ComparisonView hover data a b se sl ss sf = Some c ->
  exists scA scB,
    sg_building (cv_A c)
    = BuildingMesh 0 hover (Some scA) (Some (fun _ s => s))
                   (Some (fun _ s => s)) None sf
    /\ sg_building (cv_B c)
       = BuildingMesh 1 hover (Some scB) (Some (fun _ s => s))
                      (Some (fun _ s => s)) None sf.
Proof.
  unfold ComparisonView.
  destruct (comparison_pair _ _ _) as [[scA|] [scB|]]; try discriminate.
  intros [= <-]. by exists scA, scB.
Qed.

Lemma comparison_mesh_noop data u c k m :
  App_scene data u = Some (Comparison c) ->
  floor_mesh_at (Comparison c) k = Some m ->
  forall v, fm_onClick m v = v
            /\ ui_app (fm_onPointerEnter m v) = ui_app v
            /\ ui_app (fm_onPointerLeave m v) = ui_app v.
Proof.
  intros Hsc Hm. apply App_scene_comparison in Hsc as [_ Hcv].
  apply ComparisonView_buildings in Hcv as (scA & scB & HA & HB).
  unfold floor_mesh_at, scene_buildings in Hm. destruct k as [g idx].
  destruct g as [|[|g]]; simpl in Hm; [| |discriminate].
  - destruct (sg_building (cv_A c)) as [b|]; [|discriminate].
    destruct (bm_floors b !! idx) as [[e|]|] eqn:He; try discriminate.
    injection Hm as <-. by eapply BuildingMesh_noop.
  - destruct (sg_building (cv_B c)) as [b|]; [|discriminate].
    destruct (bm_floors b !! idx) as [[e|]|] eqn:He; try discriminate.
    injection Hm as <-. by eapply BuildingMesh_noop.
Qed.

(** C8: in comparison mode every floor solid of either scenario has
    click and hover handlers that leave the App state unchanged (the
    callbacks they are wired to do nothing), so no pointer event changes
    the selected or the hovered floor. *)
Theorem comparison_mode_read_only :
  (forall data u c k m,
     App_scene data u = Some (Comparison c) ->
     floor_mesh_at (Comparison c) k = Some m ->
     forall v, fm_onClick m v = v
               /\ ui_app (fm_onPointerEnter m v) = ui_app v
               /\ ui_app (fm_onPointerLeave m v) = ui_app v)
  /\ (forall data u k e u',
        comparisonMode (ui_app u) = true ->
        handle data (Pointer k e) u = Some u' ->
        selectedFloor (ui_app u') = selectedFloor (ui_app u)
        /\ hoveredFloor (ui_app u') = hoveredFloor (ui_app u)
        /\ ui_app u' = ui_app u).
Proof.
  split; [apply comparison_mesh_noop|].
  intros data u k e u' Hmode Hh. unfold handle in Hh.
  case_bool_decide; [discriminate|].
  destruct (App_scene data u) as [sc|] eqn:Hsc; [|discriminate].
  destruct (App_scene_mode _ _ _ Hsc Hmode) as [c ->].
  destruct (floor_mesh_at (Comparison c) k) as [m|] eqn:Hm; [|discriminate].
  injection Hh as <-.
  destruct (comparison_mesh_noop _ _ _ _ _ Hsc Hm u) as (Hc & He & Hl).
  assert (Happ : ui_app (pointer_handler e m u) = ui_app u).
  { destruct e; simpl; [by rewrite Hc|done..]. }
  by rewrite Happ.
Qed.

End InteractionFacts.

Section ScenarioFacts.

(** The scenario select of the toolbar sets the active index to the
    chosen one and sets both the selected and the hovered floor to null,
    whatever the state before; the event is available for every index of
    the scenario list, and the state it leads to holds no floor. *)
Lemma scenario_switch_clears_floors :
  (forall i s,
     activeScenario (onScenarioChange i s) = i
     /\ selectedFloor (onScenarioChange i s) = None
     /\ hoveredFloor (onScenarioChange i s) = None)
  /\ (forall data u i,
        (i < length (scenarios data))%nat ->
        exists u',
          handle data (ScenarioChange i) u = Some u'
          /\ activeScenario (ui_app u') = i
          /\ selectedFloor (ui_app u') = None
          /\ hoveredFloor (ui_app u') = None).
Proof.
  split; [done|].
  intros data u i Hi. unfold handle.
  rewrite bool_decide_eq_false_2 by lia.
  rewrite bool_decide_eq_true_2 by done.
  by eexists.
Qed.


(** The URL preselection on the two-scenario payload, for the parameter
    ["One floor"]: the first scenario matches, so index 0 becomes active
    and nothing else is written. *)
Lemma preselect_one_floor (includes_ci : string -> string -> bool)
    (u : UiState) :
  includes_ci "One floor" "One floor" = true ->
  liftApp (preselectScenario includes_ci (Some "One floor") Examples.data_two)
          u
  = liftApp (setActiveScenario 0) u.
Proof.
  intros H. unfold liftApp, preselectScenario. cbn. by rewrite H.
Qed.

(** C6, at the failing input: the page URL carries [?scenario=One floor]
    and the payload has the scenarios "One floor" (one floor) and
    "Two floors" (two floors).  The user selects "Two floors" in the
    toolbar, hovers and clicks its second floor; then a [MASSING_DATA]
    message arrives.  The preselection effect runs again and switches the
    active scenario from 1 back to 0 through [setActiveScenario] alone:
    the selected and the hovered floor are still the second floor of
    "Two floors", which the now active scenario does not have. *)
Theorem preselect_switch_keeps_floor (includes_ci : string -> string -> bool) :
  includes_ci "One floor" "One floor" = true ->
  exists u1 u2,
    app_run includes_ci (Some "One floor")
      [ Interface (ScenarioChange 1);
        Interface (Pointer (0, 1)%nat PointerEnter);
        Interface (Pointer (0, 1)%nat Click) ]
      (app_loaded includes_ci (Some "One floor") Examples.data_two)
    = Some (Examples.data_two, u1)
    /\ activeScenario (ui_app u1) = 1%nat
    /\ selectedFloor (ui_app u1) = Some Examples.floor_second
    /\ hoveredFloor (ui_app u1) = Some Examples.floor_second
    /\ app_step includes_ci (Some "One floor") (Examples.data_two, u1)
         (MassingDataMessage Examples.data_two)
       = Some (Examples.data_two, u2)
    /\ activeScenario (ui_app u2) = 0%nat
    /\ selectedFloor (ui_app u2) = Some Examples.floor_second
    /\ hoveredFloor (ui_app u2) = Some Examples.floor_second
    /\ shown_scenario Examples.data_two (ui_app u2) 0
       = Some Examples.scenario_one_floor
    /\ floors Examples.scenario_one_floor = Some [ Examples.floor_ground ]
    /\ Examples.floor_second ∉ [ Examples.floor_ground ].
Proof.
  intros H. unfold app_loaded. rewrite (preselect_one_floor _ _ H).
  eexists _, _. split; [reflexivity|].
  split; [reflexivity|]. split; [reflexivity|]. split; [reflexivity|].
  split.
  { unfold app_step. cbn [snd]. rewrite (preselect_one_floor _ _ H).
    reflexivity. }
  split; [reflexivity|]. split; [reflexivity|]. split; [reflexivity|].
  split; [reflexivity|]. split; [reflexivity|].
  intros Hin. apply list_elem_of_singleton in Hin. discriminate Hin.
Qed.

End ScenarioFacts.

Section Witnesses.
Local Open Scope Q_scope.

Lemma scenario_switch_clears_floors_witness :
  exists u',
    handle Examples.data_two (ScenarioChange 1)
      (liftApp (setSelectedFloor (Some Examples.floor_ground)) initialUi)
    = Some u'
    /\ activeScenario (ui_app u') = 1%nat
    /\ selectedFloor (ui_app u') = None
    /\ hoveredFloor (ui_app u') = None.
Proof.
  apply (proj2 scenario_switch_clears_floors Examples.data_two). simpl. lia.
Defined.

Lemma preselect_switch_keeps_floor_witness :
  exists u2,
    app_run String.eqb (Some "One floor")
      [ Interface (ScenarioChange 1);
        Interface (Pointer (0, 1)%nat PointerEnter);
        Interface (Pointer (0, 1)%nat Click);
        MassingDataMessage Examples.data_two ]
      (app_loaded String.eqb (Some "One floor") Examples.data_two)
    = Some (Examples.data_two, u2)
    /\ activeScenario (ui_app u2) = 0%nat
    /\ selectedFloor (ui_app u2) = Some Examples.floor_second
    /\ hoveredFloor (ui_app u2) = Some Examples.floor_second.
Proof.
  destruct (preselect_switch_keeps_floor String.eqb eq_refl)
    as (u1 & u2 & Hrun & _ & _ & _ & Hstep & Ha & Hs & Hh & _).
  exists u2. split; [|split; [exact Ha | split; [exact Hs | exact Hh]]].
  change (match app_run String.eqb (Some "One floor")
                  [ Interface (ScenarioChange 1);
                    Interface (Pointer (0, 1)%nat PointerEnter);
                    Interface (Pointer (0, 1)%nat Click) ]
                  (app_loaded String.eqb (Some "One floor") Examples.data_two)
          with
          | Some st => app_run String.eqb (Some "One floor")
                         [ MassingDataMessage Examples.data_two ] st
          | None => None
          end = Some (Examples.data_two, u2)).
  rewrite Hrun. cbn [app_run]. by rewrite Hstep.
Defined.



Lemma floor_extrusion_witness :
  exists e p0 rest,
    FloorMesh (0%nat, 0%nat) Examples.floor_ground false id (fun _ => id)
              false false = Some e
    /\ Examples.rect_50x100 = p0 :: rest
    /\ geometry (fm_solid e)
       = ExtrudeGeometry (shape_path p0 rest) (15 - FLOOR_GAP)
    /\ fm_position e = (0, 0 + FLOOR_GAP / 2, 0)
    /\ extent e = (0 + FLOOR_GAP / 2, 0 + FLOOR_GAP / 2 + (15 - FLOOR_GAP))
    /\ fst (extent e) < snd (extent e)
    /\ snd (extent e) - fst (extent e) == 15 - FLOOR_GAP.
Proof.
  apply (proj1 (floor_extrusion (0%nat, 0%nat) false id (fun _ => id)
                  false false)
           Examples.floor_ground Examples.rect_50x100);
    [reflexivity | simpl; lia | reflexivity].
Defined.

Lemma comparison_mode_read_only_witness :
  exists u',
    handle Examples.data_two (Pointer (1%nat, 0%nat) PointerEnter)
           Examples.ui_compare_same = Some u'
    /\ hoveredFloor (ui_app u') = None
    /\ ui_cursor u' = "pointer".
Proof.
  eexists. split; [reflexivity|].
  split; [|reflexivity].
  refine (eq_trans
            (proj1 (proj2 (proj2 comparison_mode_read_only
                             Examples.data_two Examples.ui_compare_same
                             (1%nat, 0%nat) PointerEnter _ _ _))) _);
    reflexivity.
Defined.

End Witnesses.

(** ** The components on the demo data *)

Section DemoChecks.
Local Open Scope Q_scope.

(** The demo envelope (max 95, base 65) shows its base-height plane at 65. *)
Example demo_envelope_base :
  exists plane border,
    env_base (ZoningEnvelope Examples.env_demo Examples.lot_50x100)
    = Some (plane, border)
    /\ position plane = (50 / 2, 65, 100 / 2)
    /\ geometry plane = PlaneGeometry (50 + 4) (100 + 4).
Proof. eexists _, _. repeat split. Qed.

(** A full lot polygon is drawn closed, vertex by vertex. *)
Example demo_lot_boundary :
  points (lot_boundary (LotPlane Examples.lot_50x100 true))
  = [ (0, 0.15, 0); (50, 0.15, 0); (50, 0.15, 100); (0, 0.15, 100);
      (0, 0.15, 0) ]
  /\ geometry (lot_fill (LotPlane Examples.lot_50x100 true))
     = ShapeGeometry [ MoveTo (0, 0); LineTo (50, 0); LineTo (50, 100);
                       LineTo (0, 100); ClosePath ].
Proof. split; reflexivity. Qed.

(** The rear-yard indicator of a 100 ft deep lot sits at z = 100 - 30. *)
Example demo_rear_yard :
  exists l m,
    lot_setbacks (LotPlane Examples.lot_50x100 true)
    = Some [ YardLine l; YardFill m ]
    /\ points l = [ (0, 0.2, 100 - 30); (50, 0.2, 100 - 30) ].
Proof. eexists _, _. split; reflexivity. Qed.

(** The label of the ground floor. *)
Example demo_floor_label :
  FloorLabel Examples.floor_ground
  = Some {| text_position := (Qmin 0 (Qmin 0 (Qmin 50 (Qmin 50 (Qmin 0 0)))) - 2,
                              15 / 2, 0);
            fontSize := 2; text := "F1" |}.
Proof. reflexivity. Qed.

(** In the single view the same pointer events do reach the App state:
    entering a floor solid makes it the hovered floor, clicking it makes
    it the selected floor, leaving it clears the hover. *)
Example single_view_hover_and_click :
  exists u1 u2 u3,
    handle Examples.data_two (Pointer (0%nat, 0%nat) PointerEnter) initialUi
    = Some u1
    /\ hoveredFloor (ui_app u1) = Some Examples.floor_ground
    /\ handle Examples.data_two (Pointer (0%nat, 0%nat) Click) u1 = Some u2
    /\ selectedFloor (ui_app u2) = Some Examples.floor_ground
    /\ handle Examples.data_two (Pointer (0%nat, 0%nat) PointerLeave) u2
       = Some u3
    /\ hoveredFloor (ui_app u3) = None
    /\ selectedFloor (ui_app u3) = Some Examples.floor_ground.
Proof. eexists _, _, _. repeat split. Qed.

(** A degenerate floor leaves its slot empty and the other floors alone. *)
Example degenerate_floor_slot :
  exists e,
    BuildingMesh 0 ∅
      (Some {| name := "Mixed";
               floors := Some [ Examples.floor_degenerate;
                                Examples.floor_second ];
               bulkhead := Some Examples.bulkhead_degenerate;
               zoning_envelope := None |})
      None None None false
    = Some {| bm_floors := [ None; Some e ]; bm_bulkhead := None |}
    /\ fm_position e = (0, 15 + FLOOR_GAP / 2, 0).
Proof. eexists. split; reflexivity. Qed.

End DemoChecks.

(** * Further properties of the viewer *)

(** ** Lot plane *)

Section LotFacts.
Local Open Scope Q_scope.

Lemma lifted_elevation (y : Q) (pts : list point) :
  Forall (fun p => elevation_of p = y) (map (fun '(x, z) => (x, y, z)) pts).
Proof.
  induction pts as [|[x z] pts IH]; constructor; [reflexivity | exact IH].
Qed.

(** X1. The lot boundary is always a closed ring at y = 0.15: it ends at the
    point it starts from.  For a polygon of at least three points it
    follows the polygon, one point per vertex plus the closing one;
    otherwise (no polygon, or fewer than three points) it is the
    five-point frontage-by-depth rectangle. *)
Theorem lot_boundary_closed (l : Lot) (showSetbacks : bool) :
  (exists p mid,
     points (lot_boundary (LotPlane l showSetbacks)) = p :: mid ++ [ p ]
     /\ (2 <= length mid)%nat)
  /\ Forall (fun p => elevation_of p = 0.15)
            (points (lot_boundary (LotPlane l showSetbacks)))
  /\ (forall poly,
        polygon l = Some poly -> (3 <= length poly)%nat ->
        length (points (lot_boundary (LotPlane l showSetbacks)))
        = S (length poly)
        /\ take (length poly) (points (lot_boundary (LotPlane l showSetbacks)))
           = map (fun '(x, z) => (x, 0.15, z)) poly)
  /\ (forall x0 z0 rest,
        polygon l = Some ((x0, z0) :: rest) -> (2 <= length rest)%nat ->
        points (lot_boundary (LotPlane l showSetbacks))
        = (x0, 0.15, z0) :: map (fun '(x, z) => (x, 0.15, z)) rest
          ++ [ (x0, 0.15, z0) ])
  /\ (polygon l = None
      \/ (exists poly, polygon l = Some poly /\ (length poly < 3)%nat) ->
      points (lot_boundary (LotPlane l showSetbacks))
      = [ (0, 0.15, 0); (lot_w l, 0.15, 0); (lot_w l, 0.15, lot_d l);
          (0, 0.15, lot_d l); (0, 0.15, 0) ]).
Proof.
  unfold LotPlane, lot_w, lot_d; simpl.
  destruct (polygon l) as [[|[x0 z0] [|p1 [|p2 rest]]]|] eqn:Hp; simpl.
  1-3, 5:
    (split; [eexists _, [_; _; _]; split; [reflexivity | simpl; lia] |];
     split; [repeat constructor |];
     split; [intros poly [= <-] Hlen; simpl in Hlen; lia |];
     split; [intros ? ? ? [= <- <- <-] Hlen; simpl in Hlen; lia
            | reflexivity]).
  split; [|split; [|split; [|split]]].
  - exists (x0, 0.15, z0),
      (map (fun '(x, z) => (x, 0.15, z)) (p1 :: p2 :: rest)).
    split; [reflexivity|]. simpl. rewrite length_map. lia.
  - change (Forall (fun p => elevation_of p = 0.15)
              (map (fun '(x, z) => (x, 0.15, z))
                   ((x0, z0) :: p1 :: p2 :: rest) ++ [ (x0, 0.15, z0) ])).
    apply Forall_app. split; [apply lifted_elevation | by repeat constructor].
  - intros poly [= <-] _.
    change (length (map (fun '(x, z) => (x, 0.15, z))
                        ((x0, z0) :: p1 :: p2 :: rest) ++ [ (x0, 0.15, z0) ])
            = S (length ((x0, z0) :: p1 :: p2 :: rest))
            /\ take (length ((x0, z0) :: p1 :: p2 :: rest))
                 (map (fun '(x, z) => (x, 0.15, z))
                      ((x0, z0) :: p1 :: p2 :: rest) ++ [ (x0, 0.15, z0) ])
               = map (fun '(x, z) => (x, 0.15, z))
                     ((x0, z0) :: p1 :: p2 :: rest)).
    split.
    + rewrite length_app, length_map. simpl. lia.
    + rewrite take_app_le by (rewrite length_map; lia).
      apply take_ge. rewrite length_map. lia.
  - by intros ? ? ? [= <- <- <-] _.
  - intros [[=] | (poly & [= <-] & Hlen)]. simpl in Hlen. lia.
Qed.

Lemma lot_boundary_closed_witness :
  (length (points (lot_boundary (LotPlane Examples.lot_50x100 true))) = 5%nat
   /\ take 4 (points (lot_boundary (LotPlane Examples.lot_50x100 true)))
      = [ (0, 0.15, 0); (50, 0.15, 0); (50, 0.15, 100); (0, 0.15, 100) ])
  /\ points (lot_boundary (LotPlane Examples.lot_two_points true))
     = [ (0, 0.15, 0); (50, 0.15, 0); (50, 0.15, 100); (0, 0.15, 100);
         (0, 0.15, 0) ].
Proof.
  split.
  - apply (proj1 (proj2 (proj2 (lot_boundary_closed Examples.lot_50x100 true)))
             Examples.rect_50x100); [reflexivity | simpl; lia].
  - apply (proj2 (proj2 (proj2 (proj2
             (lot_boundary_closed Examples.lot_two_points true))))).
    right. exists [ (0, 0); (50, 0) ]. split; [reflexivity | simpl; lia].
Defined.

End LotFacts.

Section StreetFacts.
Local Open Scope Q_scope.

Lemma drawable_edge_spec (e : StreetEdge) :
  drawable_edge e = true
  <-> exists p q rest, edge e = Some (p :: q :: rest).
Proof.
  unfold drawable_edge. destruct (edge e) as [pts|].
  - rewrite bool_decide_eq_true.
    destruct pts as [|p [|q rest]]; simpl; split.
    + lia.
    + by intros (? & ? & ? & [=]).
    + lia.
    + by intros (? & ? & ? & [=]).
    + eauto.
    + lia.
  - split; [done | by intros (? & ? & ? & [=])].
Qed.

Lemma street_lines_points (l : Lot) (showSetbacks : bool) :
  map points (lot_street_lines (LotPlane l showSetbacks))
  = map (fun e => map (fun '(x, z) => (x, 0.2, z)) (default [] (edge e)))
        (filter (fun e => drawable_edge e = true)
                (default [] (street_edges l))).
Proof.
  unfold LotPlane; simpl. rewrite map_map; simpl. rewrite map_id.
  induction (default [] (street_edges l)) as [|e es IH]; [reflexivity|].
  rewrite filter_cons.
  destruct (decide (drawable_edge e = true)) as [Hd|Hd].
  - apply drawable_edge_spec in Hd as (p & q & rest & He).
    simpl. rewrite He. simpl. f_equal. exact IH.
  - simpl.
    destruct (edge e) as [[|p [|q rest]]|] eqn:He; try exact IH.
    exfalso. apply Hd. apply drawable_edge_spec. eauto.
Qed.

(** X2. Street edges: the lot plane draws one bold line for each street edge
    that has at least two points, in order, with the edge's own points
    lifted to y = 0.2, and silently drops every other edge; without a
    [street_edges] field it draws none. *)
Theorem street_edges_drawn (l : Lot) (showSetbacks : bool) :
  map points (lot_street_lines (LotPlane l showSetbacks))
  = map (fun e => map (fun '(x, z) => (x, 0.2, z)) (default [] (edge e)))
        (filter (fun e => drawable_edge e = true)
                (default [] (street_edges l)))
  /\ (length (lot_street_lines (LotPlane l showSetbacks))
      <= length (default [] (street_edges l)))%nat
  /\ Forall (fun ln => (2 <= length (points ln))%nat
                       /\ Forall (fun p => elevation_of p = 0.2) (points ln))
            (lot_street_lines (LotPlane l showSetbacks))
  /\ (Forall (fun e => drawable_edge e = false) (default [] (street_edges l))
      -> lot_street_lines (LotPlane l showSetbacks) = []).
Proof.
  pose proof (street_lines_points l showSetbacks) as Hpts.
  split; [exact Hpts|]. split; [|split].
  - rewrite <- (length_map points), Hpts, length_map. apply length_filter.
  - apply Forall_map with (f := points)
      (P := fun pts => (2 <= length pts)%nat
                       /\ Forall (fun p => elevation_of p = 0.2) pts).
    rewrite Hpts. apply Forall_map, Forall_forall.
    intros e He. apply list_elem_of_filter in He as [Hd _].
    apply drawable_edge_spec in Hd as (p & q & rest & ->). simpl.
    split; [lia|]. apply (lifted_elevation 0.2 (p :: q :: rest)).
  - intros Hall.
    apply (f_equal length) in Hpts. rewrite !length_map in Hpts.
    apply length_zero_iff_nil. rewrite Hpts. clear Hpts.
    apply length_zero_iff_nil.
    induction Hall as [|e es He _ IH]; [done|].
    rewrite filter_cons. destruct (decide _) as [Hd|_]; [congruence | exact IH].
Qed.

Lemma street_edges_drawn_witness :
  lot_street_lines
    (LotPlane {| polygon := None; frontage_ft := None; depth_ft := None;
                 street_edges :=
                   Some [ {| edge := Some [ (0, 0) ]; street_name := None;
                             width := "wide" |};
                          {| edge := None; street_name := None;
                             width := "narrow" |} ] |} false) = [].
Proof.
  apply (proj2 (proj2 (proj2 (street_edges_drawn _ false)))).
  repeat constructor.
Defined.

(** X3. The street label of the single view and the first street edge: the
    label is drawn exactly when the lot plane draws that edge; it then
    sits at the midpoint of the edge's first two points, 8 ft towards the
    street.  For a first edge the lot plane drops (fewer than two points),
    building the label fails instead of being skipped. *)
Theorem street_label_needs_two_points (l : Lot) (e : StreetEdge)
    (es : list StreetEdge) :
  street_edges l = Some (e :: es) ->
  (drawable_edge e = true ->
   exists t x0 z0 x1 z1 rest,
     street_label l = Rendered (Some t)
     /\ edge e = Some ((x0, z0) :: (x1, z1) :: rest)
     /\ text_position t = ((x0 + x1) / 2, 0.5, (z0 + z1) / 2 - 8))
  /\ (drawable_edge e = false -> street_label l = TypeError).
Proof.
  intros Hl. unfold street_label, StreetLabel. rewrite Hl. split.
  - intros Hd.
    apply drawable_edge_spec in Hd as ([x0 z0] & [x1 z1] & rest & He).
    rewrite He. by eexists _, x0, z0, x1, z1, rest.
  - intros Hd.
    destruct (edge e) as [[|[x0 z0] [|[x1 z1] rest]]|] eqn:He; try done.
    exfalso. apply not_true_iff_false in Hd. apply Hd.
    apply drawable_edge_spec. eauto.
Qed.

Lemma street_label_needs_two_points_witness :
  street_label
    {| polygon := None; frontage_ft := None; depth_ft := None;
       street_edges := Some [ {| edge := Some [ (0, 0) ];
                                 street_name := Some "Main St";
                                 width := "narrow" |} ] |} = TypeError.
Proof.
  apply (proj2 (street_label_needs_two_points
                  {| polygon := None; frontage_ft := None; depth_ft := None;
                     street_edges := Some [ {| edge := Some [ (0, 0) ];
                                               street_name := Some "Main St";
                                               width := "narrow" |} ] |}
                  {| edge := Some [ (0, 0) ]; street_name := Some "Main St";
                     width := "narrow" |} [] eq_refl)).
  reflexivity.
Defined.

(** A lot without street edges has no street label and no failure. *)
Lemma street_label_absent (l : Lot) :
  street_edges l = None \/ street_edges l = Some [] ->
  street_label l = Rendered None.
Proof. unfold street_label. by intros [-> | ->]. Qed.

(** X4. The rear-yard indicator is drawn exactly when the effective lot depth
    exceeds the fixed 30 ft rear yard.  It is a dashed line across the
    frontage at z = depth - 30 and a fill whose shape is the rectangle
    from depth - 30 to depth in the shape's own coordinates; the fill's
    geometry is then rotated by [rotateX(-Math.PI / 2)], which puts its
    corners at z = -(depth - 30) and z = -depth: the fill lies at negative
    z, mirrored across the street line from the dashed line.  A lot of
    depth 30 or less gets no indicator; a lot without a depth gets the
    line at z = 70. *)
Theorem rear_yard_indicator (l : Lot) :
  (30 < lot_d l ->
   exists ln fill,
     SetbackIndicators l = [ YardLine ln; YardFill fill ]
     /\ points ln = [ (0, 0.2, lot_d l - 30); (lot_w l, 0.2, lot_d l - 30) ]
     /\ geometry fill
        = ShapeGeometry [ MoveTo (0, lot_d l - 30);
                          LineTo (lot_w l, lot_d l - 30);
                          LineTo (lot_w l, lot_d l); LineTo (0, lot_d l);
                          ClosePath ]
     /\ position fill = (0, 0.08, 0)
     /\ map rotateX_flat (shape_points (geometry fill))
        = [ (0, 0, - (lot_d l - 30)); (lot_w l, 0, - (lot_d l - 30));
            (lot_w l, 0, - lot_d l); (0, 0, - lot_d l) ]
     /\ Forall (fun v => 0 < depth_of v) (points ln)
     /\ Forall (fun v => depth_of v < 0)
               (map rotateX_flat (shape_points (geometry fill))))
  /\ (lot_d l <= 30 -> SetbackIndicators l = [])
  /\ (falsy (depth_ft l) ->
      exists ln fill,
        SetbackIndicators l = [ YardLine ln; YardFill fill ]
        /\ points ln = [ (0, 0.2, 100 - 30); (lot_w l, 0.2, 100 - 30) ]).
Proof.
  assert (Hguard : forall d : Q, Js.ltb 0 (d - 30) = true <-> 30 < d).
  { intros d. rewrite ltb_lt. rewrite (Qlt_minus_iff 30 d).
    unfold Qminus. tauto. }
  unfold SetbackIndicators, lot_d, lot_w. split; [|split].
  - intros Hd. pose proof Hd as Hd'. apply Hguard in Hd'.
    change (Js.ltb 0 30) with true. rewrite Hd'. simpl.
    eexists _, _. split; [reflexivity|].
    cbn [points geometry position shape_path map app].
    split; [reflexivity|]. split; [reflexivity|]. split; [reflexivity|].
    split; [reflexivity|].
    set (d := Js.or_num (depth_ft l) 100) in *.
    split.
    + repeat constructor; unfold depth_of; cbn [snd]; lra.
    + unfold shape_points, rotateX_flat, depth_of.
      cbn [omap list_omap map fst snd].
      repeat constructor; cbn [snd]; lra.
  - intros Hd. change (Js.ltb 0 30) with true. simpl.
    destruct (Js.ltb 0 (Js.or_num (depth_ft l) 100 - 30)) eqn:Hg; [|done].
    apply Hguard in Hg. apply Qlt_not_le in Hg. contradiction.
  - intros Hf. rewrite (or_num_falsy _ 100 Hf). by eexists _, _.
Qed.

Lemma rear_yard_indicator_witness :
  SetbackIndicators
    {| polygon := None; frontage_ft := Some 20; depth_ft := Some 25;
       street_edges := None |} = []
  /\ exists ln fill,
       SetbackIndicators Examples.lot_50x100 = [ YardLine ln; YardFill fill ]
       /\ points ln = [ (0, 0.2, 100 - 30); (50, 0.2, 100 - 30) ]
       /\ map rotateX_flat (shape_points (geometry fill))
          = [ (0, 0, - (100 - 30)); (50, 0, - (100 - 30));
              (50, 0, - 100); (0, 0, - 100) ].
Proof.
  split.
  - apply (proj1 (proj2 (rear_yard_indicator _))). by apply Qle_bool_iff.
  - destruct (proj1 (rear_yard_indicator Examples.lot_50x100))
      as (ln & fill & H1 & H2 & _ & _ & H3 & _); [reflexivity|].
    exists ln, fill. split; [exact H1|]. split; [exact H2 | exact H3].
Defined.

End StreetFacts.

(** ** Building solids *)

Section SolidFacts.
Local Open Scope Q_scope.

Lemma Qmin_cases (a b : Q) : Qmin a b = a \/ Qmin a b = b.
Proof.
  unfold Qmin, GenericMinMax.gmin. destruct (a ?= b); auto.
Qed.

Lemma min_list_elem (x : Q) (xs : list Q) : Js.min_list x xs ∈ x :: xs.
Proof.
  unfold Js.min_list. induction xs as [|a xs IH]; simpl.
  - apply elem_of_cons. by left.
  - destruct (Qmin_cases a (foldr Qmin x xs)) as [H | H]; rewrite H.
    + apply elem_of_cons. right. apply elem_of_cons. by left.
    + apply elem_of_cons. apply elem_of_cons in IH as [Heq | Hin].
      * by left.
      * right. apply elem_of_cons. by right.
Qed.

Lemma min_list_lower (x : Q) (xs : list Q) (y : Q) :
  y ∈ x :: xs -> Js.min_list x xs <= y.
Proof.
  unfold Js.min_list. induction xs as [|a xs IH]; simpl.
  - intros Hy. apply list_elem_of_singleton in Hy as ->. apply Qle_refl.
  - intros Hy. apply elem_of_cons in Hy as [-> | Hy].
    + eapply Qle_trans; [apply Q.le_min_r | apply IH; set_solver].
    + apply elem_of_cons in Hy as [-> | Hy]; [apply Q.le_min_l|].
      eapply Qle_trans; [apply Q.le_min_r | apply IH; set_solver].
Qed.

(** X5. The floor label: for a footprint of at least two points it reads
    "F" followed by the floor number and is anchored 2 ft to the left of
    the smallest x of the footprint (a lower bound of every vertex, attained
    by one of them), at half the floor height and at the z of the first
    vertex; a footprint with fewer points has no label. *)
Theorem floor_label_anchor (f : Floor) (poly : list point) :
  footprint f = Some poly ->
  ((2 <= length poly)%nat ->
   exists t m x0 z0 tl,
     FloorLabel f = Some t
     /\ poly = (x0, z0) :: tl
     /\ text_position t = (m - 2, height_ft f / 2, z0)
     /\ (forall p, p ∈ poly -> m <= fst p)
     /\ (exists p, p ∈ poly /\ m = fst p)
     /\ text t = "F" +:+ pretty (floor_num f))
  /\ ((length poly < 2)%nat -> FloorLabel f = None).
Proof.
  intros Hfp. unfold FloorLabel. rewrite Hfp. split.
  - intros Hlen. destruct poly as [|[x0 z0] [|p1 rest]]; simpl in Hlen; try lia.
    set (poly := (x0, z0) :: p1 :: rest).
    exists {| text_position := (Js.min_list x0 (map fst poly) - 2,
                                height_ft f / 2, z0);
              fontSize := 2; text := "F" +:+ pretty (floor_num f) |},
      (Js.min_list x0 (map fst poly)), x0, z0, (p1 :: rest).
    split; [reflexivity|]. split; [reflexivity|]. split; [reflexivity|].
    split; [|split; [|reflexivity]].
    + intros p Hp. apply min_list_lower. right.
      by apply list_elem_of_fmap_2.
    + pose proof (min_list_elem x0 (map fst poly)) as Hin.
      apply elem_of_cons in Hin as [Heq | Hin].
      * exists (x0, z0). split; [subst poly; set_solver | exact Heq].
      * apply list_elem_of_fmap in Hin as (p & Heq & Hp). eauto.
  - intros Hlen. destruct poly as [|[x0 z0] [|p1 rest]]; simpl in Hlen;
      try lia; reflexivity.
Qed.

Lemma floor_label_anchor_witness :
  exists t m x0 z0 tl,
    FloorLabel Examples.floor_second = Some t
    /\ Examples.rect_50x100 = (x0, z0) :: tl
    /\ text_position t = (m - 2, 10 / 2, z0)
    /\ (forall p, p ∈ Examples.rect_50x100 -> m <= fst p)
    /\ (exists p, p ∈ Examples.rect_50x100 /\ m = fst p)
    /\ text t = "F2".
Proof.
  apply (proj1 (floor_label_anchor Examples.floor_second Examples.rect_50x100
                  eq_refl)).
  simpl. lia.
Defined.

Lemma solid_footprint_spec (fp : option (list point)) :
  solid_footprint fp = true
  <-> exists poly, fp = Some poly /\ (3 <= length poly)%nat.
Proof.
  unfold solid_footprint. destruct fp as [poly|].
  - rewrite bool_decide_eq_true. split; [eauto | by intros (? & [= <-] & ?)].
  - split; [done | by intros (? & [=] & _)].
Qed.

Lemma rendered_slots_count {A B : Type} (F : nat -> A -> option B)
    (P : A -> Prop) `{!forall a, Decision (P a)} (l : list A) :
  (forall i a, is_Some (F i a) <-> P a) ->
  length (omap id (imap F l)) = length (filter P l).
Proof.
  revert F. induction l as [|a l IH]; intros F HF; [reflexivity|].
  rewrite imap_cons, filter_cons. simpl.
  destruct (decide (P a)) as [Ha|Ha].
  - apply HF with (i := 0%nat) in Ha as [b Hb]. rewrite Hb. simpl.
    f_equal. apply IH. intros i a'. apply HF.
  - destruct (F 0%nat a) as [b|] eqn:Hb.
    + exfalso. apply Ha. eapply HF. by rewrite Hb.
    + apply IH. intros i a'. apply HF.
Qed.

(** X6. The building group has one slot per floor of the scenario, in floor
    order; a slot holds a solid exactly when its floor has a footprint of
    at least three points, so the number of solids is the number of such
    floors; a scenario without a floor list renders nothing. *)
Theorem building_slots (group : nat) (hover : gset MeshKey) (sc : Scenario)
    (onFloorClick onFloorHover : option FloorCallback)
    (hovered : option Floor) (labels : bool) :
  (forall fls,
     floors sc = Some fls ->
     exists b,
       BuildingMesh group hover (Some sc) onFloorClick onFloorHover hovered
                    labels = Some b
       /\ length (bm_floors b) = length fls
       /\ (forall i f,
             fls !! i = Some f ->
             exists slot,
               bm_floors b !! i = Some slot
               /\ (is_Some slot <-> solid_footprint (footprint f) = true))
       /\ length (omap id (bm_floors b))
          = length (filter (fun f => solid_footprint (footprint f) = true)
                           fls))
  /\ (floors sc = None ->
      BuildingMesh group hover (Some sc) onFloorClick onFloorHover hovered
                   labels = None).
Proof.
  unfold BuildingMesh. split; [|by intros ->].
  intros fls ->. eexists. split; [reflexivity|]. simpl.
  split; [apply length_imap|]. split.
  - intros i f Hf. rewrite list_lookup_imap, Hf. simpl.
    eexists. split; [reflexivity|].
    rewrite FloorMesh_is_Some. symmetry. apply solid_footprint_spec.
  - apply rendered_slots_count. intros i f.
    rewrite FloorMesh_is_Some. symmetry. apply solid_footprint_spec.
Qed.

Lemma building_slots_witness :
  exists b,
    BuildingMesh 0 ∅
      (Some {| name := "Mixed";
               floors := Some [ Examples.floor_degenerate;
                                Examples.floor_second ];
               bulkhead := None; zoning_envelope := None |})
      None None None false = Some b
    /\ length (bm_floors b) = 2%nat
    /\ length (omap id (bm_floors b)) = 1%nat.
Proof.
  destruct (proj1 (building_slots 0 ∅
                     {| name := "Mixed";
                        floors := Some [ Examples.floor_degenerate;
                                         Examples.floor_second ];
                        bulkhead := None; zoning_envelope := None |}
                     None None None false)
              [ Examples.floor_degenerate; Examples.floor_second ] eq_refl)
    as (b & Hb & Hlen & _ & Hcount).
  exists b. split; [exact Hb|]. split; [exact Hlen|]. exact Hcount.
Defined.

End SolidFacts.

Section SeamFacts.
Local Open Scope Q_scope.





(** Why the floors must be higher than the gap: a floor 0.1 ft high is
    extruded by -0.2 ft, downwards from its group position, so its solid
    ends above its nominal top. *)
Lemma thin_floor_extent :
  exists e,
    FloorMesh (0%nat, 0%nat)
      {| floor_num := 1; use := "commercial"; elevation_ft := 15;
         height_ft := 0.1; footprint := Some Examples.rect_50x100 |}
      false id (fun _ => id) false false = Some e
    /\ fst (extent e) == 14.95 /\ snd (extent e) == 15.15
    /\ 15 + 0.1 < snd (extent e).
Proof. eexists. split; [reflexivity|]. repeat split. Qed.

End SeamFacts.

(** ** Pointer events and highlighting *)

Section PointerFacts.
Local Open Scope Q_scope.

Lemma BuildingMesh_lookup group hover sc cbClick cbHover hovered labels b idx :
  BuildingMesh group hover (Some sc) (Some cbClick) (Some cbHover) hovered
               labels = Some b ->
  match bm_floors b !! idx with
  | Some (Some e) => Some e
  | _ => None
  end
  = match floors sc with
    | Some fls =>
        match fls !! idx with
        | Some f =>
            FloorMesh (group, idx) f
              match hovered with
              | Some h => (floor_num h =? floor_num f)%Z
              | None => false
              end
              (cbClick (Some f))
              (fun hv => cbHover (if hv then Some f else None))
              labels (bool_decide ((group, idx) ∈ hover))
        | None => None
        end
    | None => None
    end.
Proof.
  unfold BuildingMesh. destruct (floors sc) as [fls|]; [|discriminate].
  intros [= <-]. cbn [bm_floors]. rewrite list_lookup_imap.
  destruct (fls !! idx) as [f|]; [|reflexivity]. simpl.
  by destruct (FloorMesh _ _ _ _ _ _ _).
Qed.

Lemma BuildingMesh_None group hover sc cbClick cbHover hovered labels :
  BuildingMesh group hover (Some sc) cbClick cbHover hovered labels = None ->
  floors sc = None.
Proof. unfold BuildingMesh. by destruct (floors sc). Qed.

Lemma building_floor_at group hover sc cbClick cbHover hovered labels idx :
  match BuildingMesh group hover (Some sc) (Some cbClick) (Some cbHover)
                     hovered labels with
  | Some b =>
      match bm_floors b !! idx with
      | Some (Some e) => Some e
      | _ => None
      end
  | None => None
  end
  = match floors sc with
    | Some fls =>
        match fls !! idx with
        | Some f =>
            FloorMesh (group, idx) f
              match hovered with
              | Some h => (floor_num h =? floor_num f)%Z
              | None => false
              end
              (cbClick (Some f))
              (fun hv => cbHover (if hv then Some f else None))
              labels (bool_decide ((group, idx) ∈ hover))
        | None => None
        end
    | None => None
    end.
Proof.
  destruct (BuildingMesh _ _ _ _ _ _ _) as [b|] eqn:Hb.
  - by apply BuildingMesh_lookup.
  - apply BuildingMesh_None in Hb. by rewrite Hb.
Qed.

Lemma ComparisonView_pair hover data a b se sl ss sf c :
  ComparisonView hover data a b se sl ss sf = Some c ->
  exists scA scB,
    comparison_pair (scenarios data) a b = (Some scA, Some scB)
    /\ sg_building (cv_A c)
       = BuildingMesh 0 hover (Some scA) (Some (fun _ s => s))
                      (Some (fun _ s => s)) None sf
    /\ sg_building (cv_B c)
       = BuildingMesh 1 hover (Some scB) (Some (fun _ s => s))
                      (Some (fun _ s => s)) None sf.
Proof.
  unfold ComparisonView.
  destruct (comparison_pair _ _ _) as [[scA|] [scB|]]; try discriminate.
  intros [= <-]. by exists scA, scB.
Qed.

(** What the scene mounts under a key is the solid of the floor behind
    that key, built with the callbacks of the current view. *)
Lemma floor_mesh_at_mounted data u sc k :
  App_scene data u = Some sc ->
  floor_mesh_at sc k = mounted_mesh data u k.
Proof.
  unfold App_scene, mounted_mesh, shown_floor, shown_scenario,
    view_isHovered, view_click, view_hover.
  destruct k as [g idx]. cbn [fst snd].
  destruct (scenarios data) as [|sc0 scs] eqn:Hscs; [discriminate|].
  destruct (comparisonMode (ui_app u)) eqn:Hmode.
  - destruct (ComparisonView _ _ _ _ _ _ _ _) as [c|] eqn:Hc; [|discriminate].
    intros [= <-].
    apply ComparisonView_pair in Hc as (scA & scB & Hpair & HA & HB).
    rewrite Hscs in Hpair. rewrite Hpair.
    unfold floor_mesh_at, scene_buildings. cbn [fst snd].
    destruct g as [|[|g]]; cbn [lookup list_lookup].
    + rewrite HA, (building_floor_at 0).
      destruct (floors scA) as [fls|]; [|reflexivity].
      by destruct (fls !! idx).
    + rewrite HB, (building_floor_at 1).
      destruct (floors scB) as [fls|]; [|reflexivity].
      by destruct (fls !! idx).
    + reflexivity.
  - cbv zeta. destruct (ms_street_label _); [|discriminate].
    intros [= <-]. unfold floor_mesh_at, scene_buildings. cbn [fst snd].
    destruct g as [|g]; cbn [lookup list_lookup]; [|reflexivity].
    change (ms_building (MassingScene ?h ?d ?s ?e ?lb ?sb ?fl ?c1 ?c2 ?hf))
      with (BuildingMesh 0 h (Some s) c1 c2 hf fl).
    rewrite (building_floor_at 0).
    destruct (floors _) as [fls|]; [|reflexivity].
    by destruct (fls !! idx).
Qed.

Lemma handle_pointer data u k ev u' :
  handle data (Pointer k ev) u = Some u' ->
  exists m, mounted_mesh data u k = Some m /\ u' = pointer_handler ev m u.
Proof.
  unfold handle. case_bool_decide; [discriminate|].
  destruct (App_scene data u) as [sc|] eqn:Hsc; [|discriminate].
  rewrite (floor_mesh_at_mounted _ _ _ k Hsc).
  destruct (mounted_mesh data u k) as [m|]; [|discriminate].
  intros [= <-]. eauto.
Qed.

End PointerFacts.

Section HoverFacts.
Local Open Scope Q_scope.

Lemma mounted_mesh_Some data u k m :
  mounted_mesh data u k = Some m ->
  exists f,
    shown_floor data (ui_app u) k = Some f
    /\ solid_footprint (footprint f) = true
    /\ fm_onClick m = liftApp (view_click (ui_app u) (Some f))
    /\ fm_onPointerEnter m
       = (fun v => setCursor "pointer"
                     (liftApp (view_hover (ui_app u) (Some f))
                              (setLocalHover k true v)))
    /\ fm_onPointerLeave m
       = (fun v => setCursor "default"
                     (liftApp (view_hover (ui_app u) None)
                              (setLocalHover k false v))).
Proof.
  unfold mounted_mesh.
  destruct (shown_floor data (ui_app u) k) as [f|]; [|discriminate].
  intros Hm. exists f. split; [reflexivity|]. split.
  - apply solid_footprint_spec. eapply FloorMesh_is_Some. by rewrite Hm.
  - by apply FloorMesh_handlers in Hm.
Qed.

Lemma same_view_refl s : same_view s s.
Proof. by repeat split. Qed.

Lemma shown_floor_same_view data s s' k :
  same_view s s' -> shown_floor data s' k = shown_floor data s k.
Proof.
  intros (Ha & Hm & Hc & _).
  unfold shown_floor, shown_scenario. by rewrite Ha, Hm, Hc.
Qed.

Lemma App_scene_same_view data u u' :
  same_view (ui_app u) (ui_app u') ->
  is_Some (App_scene data u) -> is_Some (App_scene data u').
Proof.
  intros (Ha & Hm & Hc & _). unfold App_scene.
  destruct (scenarios data) as [|sc0 scs]; [done|].
  rewrite Ha, Hm, Hc. destruct (comparisonMode (ui_app u)).
  2: { unfold MassingScene. cbn [ms_street_label].
       destruct (street_label _); [by eauto | by intros [? [=]]]. }
  unfold ComparisonView.
  destruct (comparison_pair _ _ _) as [[scA|] [scB|]]; simpl;
    (by intros [? [=]]) || eauto.
Qed.

Lemma view_hover_same_view s x : same_view s (view_hover s x s).
Proof. unfold view_hover. by destruct (comparisonMode s). Qed.

Lemma view_click_same_view s x : same_view s (view_click s x s).
Proof. unfold view_click. by destruct (comparisonMode s). Qed.

Lemma handle_pointer_scene data u k ev u' :
  handle data (Pointer k ev) u = Some u' ->
  same_view (ui_app u) (ui_app u') /\ is_Some (App_scene data u').
Proof.
  intros Hh.
  assert (Hsc : is_Some (App_scene data u)).
  { unfold handle in Hh. case_bool_decide; [discriminate|].
    destruct (App_scene data u); [eauto | discriminate]. }
  apply handle_pointer in Hh as (m & Hm & ->).
  apply mounted_mesh_Some in Hm as (f & _ & _ & Hc & He & Hl).
  assert (Hv : same_view (ui_app u) (ui_app (pointer_handler ev m u))).
  { destruct ev; simpl; rewrite ?Hc, ?He, ?Hl; simpl.
    - apply view_click_same_view.
    - apply view_hover_same_view.
    - apply view_hover_same_view. }
  split; [exact Hv|]. by eapply App_scene_same_view.
Qed.

Lemma FloorMesh_drawn key (f : Floor) isHovered onClick onHover showLabel
    localHover :
  solid_footprint (footprint f) = true ->
  exists m,
    FloorMesh key f isHovered onClick onHover showLabel localHover = Some m
    /\ opacity (fm_solid m) = (if isHovered || localHover then 0.85 else 1)
    /\ fm_emissive m
       = (if isHovered || localHover then "#ffffff" else "#000000").
Proof.
  intros Hs. apply solid_footprint_spec in Hs as (poly & Hfp & Hlen).
  unfold FloorMesh. rewrite Hfp.
  destruct poly as [|p0 [|p1 [|p2 rest]]]; simpl in Hlen; try lia.
  by eexists.
Qed.

(** The solid under key [k] after a hover event on it. *)
Lemma mounted_after_hover data u k m (entered : bool) :
  mounted_mesh data u k = Some m ->
  let u' := (if entered then fm_onPointerEnter m else fm_onPointerLeave m) u in
  exists m',
    mounted_mesh data u' k = Some m'
    /\ if entered then highlighted m' else plain m'.
Proof.
  intros Hm. apply mounted_mesh_Some in Hm as (f & Hf & Hsolid & _ & He & Hl).
  cbv zeta. unfold mounted_mesh.
  destruct entered; rewrite ?He, ?Hl; cbn [ui_app ui_localHover setCursor
    liftApp setLocalHover].
  - rewrite (shown_floor_same_view _ _ _ _ (view_hover_same_view _ _)), Hf.
    rewrite bool_decide_eq_true_2
      by (apply elem_of_union; left; by apply elem_of_singleton).
    edestruct (FloorMesh_drawn k f) as (m' & -> & Ho & Hc); [exact Hsolid|].
    exists m'. split; [reflexivity|]. rewrite orb_true_r in Ho, Hc. by split.
  - rewrite (shown_floor_same_view _ _ _ _ (view_hover_same_view _ _)), Hf.
    rewrite bool_decide_eq_false_2
      by (rewrite elem_of_difference, elem_of_singleton; tauto).
    assert (Hnot : view_isHovered (view_hover (ui_app u) None (ui_app u)) f
                   = false).
    { unfold view_isHovered, view_hover.
      by destruct (comparisonMode (ui_app u)) eqn:Hmode; simpl; rewrite ?Hmode. }
    edestruct (FloorMesh_drawn k f) as (m' & -> & Ho & Hc); [exact Hsolid|].
    exists m'. split; [reflexivity|]. rewrite Hnot in Ho, Hc. by split.
Qed.

(** X8. Hover feedback, in either view: once the pointer has entered a floor
    solid, the next render draws that solid highlighted (opacity 0.85,
    white emissive tint); once it has left, the next render draws it
    plain again. *)
Theorem hover_highlights_solid (data : MassingData) (u u' : UiState)
    (k : MeshKey) :
  (handle data (Pointer k PointerEnter) u = Some u' ->
   exists sc' m',
     App_scene data u' = Some sc'
     /\ floor_mesh_at sc' k = Some m' /\ highlighted m')
  /\ (handle data (Pointer k PointerLeave) u = Some u' ->
      exists sc' m',
        App_scene data u' = Some sc'
        /\ floor_mesh_at sc' k = Some m' /\ plain m').
Proof.
  split; intros Hh;
    destruct (handle_pointer_scene _ _ _ _ _ Hh) as [_ [sc' Hsc']];
    apply handle_pointer in Hh as (m & Hm & ->);
    exists sc'; rewrite (floor_mesh_at_mounted _ _ _ k Hsc').
  - destruct (mounted_after_hover _ _ _ _ true Hm) as (m' & Hm' & Hhl).
    exists m'. split; [exact Hsc' | split; [exact Hm' | exact Hhl]].
  - destruct (mounted_after_hover _ _ _ _ false Hm) as (m' & Hm' & Hpl).
    exists m'. split; [exact Hsc' | split; [exact Hm' | exact Hpl]].
Qed.

Lemma hover_highlights_solid_witness :
  exists u' sc' m',
    handle Examples.data_two (Pointer (1%nat, 0%nat) PointerEnter)
           Examples.ui_compare_same = Some u'
    /\ App_scene Examples.data_two u' = Some sc'
    /\ floor_mesh_at sc' (1%nat, 0%nat) = Some m' /\ highlighted m'.
Proof.
  eexists.
  assert (H : handle Examples.data_two (Pointer (1%nat, 0%nat) PointerEnter)
                Examples.ui_compare_same = Some _) by reflexivity.
  destruct (proj1 (hover_highlights_solid _ _ _ _) H) as (sc' & m' & H1 & H2 & H3).
  exists sc', m'. split; [exact H|]. split; [exact H1|]. split; [exact H2|exact H3].
Defined.

End HoverFacts.

Section SelectionFacts.

(** X9. Pointer events in the single view.  A pointer event that a floor
    solid answers comes from a floor with a footprint of at least three
    points: a click makes that floor the selected one and touches nothing
    else, pointer-enter makes it the hovered one (replacing any earlier
    hover), pointer-leave clears the hover; hovering never changes the
    selection and a click never changes the hover.  When the street label
    of the scene can be built, every floor with such a footprint answers;
    when it cannot, the scene is not rendered and no solid answers. *)
Theorem single_view_pointer_events (data : MassingData) (u : UiState)
    (k : MeshKey) :
  comparisonMode (ui_app u) = false ->
  (forall ev u',
     handle data (Pointer k ev) u = Some u' ->
     exists f,
       shown_floor data (ui_app u) k = Some f
       /\ solid_footprint (footprint f) = true
       /\ match ev with
          | Click =>
              ui_app u' = setSelectedFloor (Some f) (ui_app u)
              /\ ui_localHover u' = ui_localHover u
              /\ ui_cursor u' = ui_cursor u
          | PointerEnter =>
              ui_app u' = setHoveredFloor (Some f) (ui_app u)
              /\ ui_localHover u' = {[ k ]} ∪ ui_localHover u
              /\ ui_cursor u' = "pointer"
          | PointerLeave =>
              ui_app u' = setHoveredFloor None (ui_app u)
              /\ ui_localHover u' = ui_localHover u ∖ {[ k ]}
              /\ ui_cursor u' = "default"
          end)
  /\ (forall f ev,
        street_label (lot data) <> TypeError ->
        shown_floor data (ui_app u) k = Some f ->
        solid_footprint (footprint f) = true ->
        is_Some (handle data (Pointer k ev) u))
  /\ (street_label (lot data) = TypeError ->
      forall ev, handle data (Pointer k ev) u = None).
Proof.
  intros Hmode. split; [|split].
  - intros ev u' Hh. apply handle_pointer in Hh as (m & Hm & ->).
    apply mounted_mesh_Some in Hm as (f & Hf & Hsolid & Hc & He & Hl).
    exists f. split; [exact Hf|]. split; [exact Hsolid|].
    unfold view_click, view_hover in *. rewrite Hmode in *.
    destruct ev; simpl; rewrite ?Hc, ?He, ?Hl; by repeat split.
  - intros f ev Hlabel Hf Hsolid. unfold handle.
    assert (Hne : scenarios data <> []).
    { intros Hnil. unfold shown_floor, shown_scenario in Hf.
      rewrite Hmode, Hnil in Hf. by destruct (fst k). }
    rewrite bool_decide_eq_false_2
      by (intros Hn; by apply length_zero_iff_nil in Hn).
    destruct (App_scene data u) as [sc|] eqn:Hsc.
    + rewrite (floor_mesh_at_mounted _ _ _ k Hsc). unfold mounted_mesh.
      rewrite Hf.
      edestruct (FloorMesh_drawn k f) as (m & -> & _); [exact Hsolid|].
      eauto.
    + exfalso. unfold App_scene in Hsc. rewrite Hmode in Hsc.
      destruct (scenarios data); [done|].
      unfold MassingScene in Hsc. cbn [ms_street_label] in Hsc.
      by destruct (street_label (lot data)).
  - intros Hlabel ev. unfold handle.
    case_bool_decide; [reflexivity|].
    unfold App_scene. rewrite Hmode.
    destruct (scenarios data); [reflexivity|].
    unfold MassingScene. cbn [ms_street_label]. by rewrite Hlabel.
Qed.

Lemma single_view_pointer_events_witness :
  exists u' f,
    handle Examples.data_two (Pointer (0%nat, 0%nat) Click) initialUi = Some u'
    /\ shown_floor Examples.data_two initialApp (0%nat, 0%nat) = Some f
    /\ ui_app u' = setSelectedFloor (Some f) initialApp.
Proof.
  eexists.
  assert (H : handle Examples.data_two (Pointer (0%nat, 0%nat) Click)
                initialUi = Some _) by reflexivity.
  destruct (proj1 (single_view_pointer_events Examples.data_two initialUi
                     (0%nat, 0%nat) eq_refl) Click _ H)
    as (f & Hf & _ & Happ & _).
  exists f. split; [exact H|]. split; [exact Hf | exact Happ].
Defined.

Lemma handle_keeps_selection data ev u u' :
  selects ev = false ->
  handle data ev u = Some u' ->
  selectedFloor (ui_app u') = selectedFloor (ui_app u).
Proof.
  intros Hsel Hh. destruct ev as [i|b|b|b|b| |i|k pe]; try discriminate Hsel.
  1-6: (unfold handle in Hh; case_bool_decide; [discriminate|];
        repeat case_match; try discriminate; by injection Hh as <-).
  destruct pe; [discriminate Hsel| |];
    apply handle_pointer in Hh as (m & Hm & ->);
    apply mounted_mesh_Some in Hm as (f & _ & _ & _ & He & Hl);
    simpl; rewrite ?He, ?Hl; simpl; unfold view_hover;
    by destruct (comparisonMode (ui_app u)).
Qed.

(** X10. Selection is sticky: over any sequence of events without a click on a
    floor solid and without a scenario switch - hovering, leaving,
    display toggles, comparison controls - the selected floor stays what
    it was; while a floor is selected the detail card shows that floor
    and the hover tooltip stays hidden. *)
Theorem selection_is_sticky (data : MassingData) (evs : list Event)
    (u u' : UiState) :
  Forall (fun ev => selects ev = false) evs ->
  run data evs u = Some u' ->
  selectedFloor (ui_app u') = selectedFloor (ui_app u)
  /\ (forall f,
        selectedFloor (ui_app u) = Some f ->
        floor_detail (ui_app u') = Some f
        /\ floor_tooltip (ui_app u') = None).
Proof.
  intros Hevs Hrun.
  assert (Hsel : selectedFloor (ui_app u') = selectedFloor (ui_app u)).
  { revert u Hrun. induction Hevs as [|ev evs Hev _ IH]; intros u Hrun.
    - by injection Hrun as <-.
    - simpl in Hrun. destruct (handle data ev u) as [u1|] eqn:Hh;
        [|discriminate].
      rewrite (IH _ Hrun). by eapply handle_keeps_selection. }
  split; [exact Hsel|].
  intros f Hf. unfold floor_detail, floor_tooltip. rewrite Hsel, Hf.
  split; [reflexivity|]. by destruct (hoveredFloor (ui_app u')).
Qed.

Lemma selection_is_sticky_witness :
  exists u1 u2,
    handle Examples.data_two (Pointer (0%nat, 0%nat) Click) initialUi = Some u1
    /\ run Examples.data_two
           [ Pointer (0%nat, 0%nat) PointerEnter; LabelsChange true;
             Pointer (0%nat, 0%nat) PointerLeave; CompareClick ] u1 = Some u2
    /\ floor_detail (ui_app u2) = Some Examples.floor_ground
    /\ floor_tooltip (ui_app u2) = None.
Proof.
  eexists _, _. split; [reflexivity|].
  match goal with
  | |- run ?d ?evs ?u1 = Some ?u2 /\ _ =>
      assert (Hrun : run d evs u1 = Some u2) by reflexivity;
      split; [exact Hrun|];
      apply (proj2 (selection_is_sticky d evs u1 _
                      ltac:(repeat constructor) Hrun)
               Examples.floor_ground eq_refl)
  end.
Defined.

(** Without a selection the tooltip and the detail card agree: the card
    shows the hovered floor exactly when the tooltip does, and with
    neither a selected nor a hovered floor both are absent. *)
Lemma tooltip_and_card_agree (s : AppState) :
  (forall f, floor_tooltip s = Some f -> floor_detail s = Some f)
  /\ (floor_detail s = None
      <-> selectedFloor s = None /\ hoveredFloor s = None).
Proof.
  unfold floor_tooltip, floor_detail.
  destruct (selectedFloor s), (hoveredFloor s); split;
    try done; try (split; [done | by intros [? ?]]); by intros ? [= <-].
Qed.

End SelectionFacts.

Section IndexFacts.

Lemma handle_indices data ev u u' :
  handle data ev u = Some u' ->
  (activeScenario (ui_app u') = activeScenario (ui_app u)
   \/ (activeScenario (ui_app u') < length (scenarios data))%nat)
  /\ (comparisonScenario (ui_app u') = comparisonScenario (ui_app u)
      \/ (comparisonScenario (ui_app u') < length (scenarios data))%nat).
Proof.
  intros Hh. destruct ev as [i|b|b|b|b| |i|k pe].
  8: { apply handle_pointer_scene in Hh as [(Ha & _ & Hc & _) _]. auto. }
  all: unfold handle in Hh; case_bool_decide; [discriminate|].
  - case_bool_decide; [|discriminate]. injection Hh as <-. simpl. auto.
  - injection Hh as <-. auto.
  - injection Hh as <-. auto.
  - injection Hh as <-. auto.
  - injection Hh as <-. auto.
  - injection Hh as <-. auto.
  - destruct (comparisonMode (ui_app u)); [|discriminate].
    case_bool_decide; [|discriminate].
    destruct (negb _); [|discriminate].
    injection Hh as <-. simpl. auto.
Qed.

(** X11. Scenario indices stay usable: in every state reachable through the
    interface over a non-empty scenario list, the active index selects a
    scenario (the [|| scenarios[0]] fallback of App is never needed), the
    comparison index is the initial 1 or an index of the list, and both
    scenarios of the comparison pair are defined, the first being the
    active one. *)
Theorem scenario_indices_in_range (data : MassingData) (u : UiState) :
  reachable data u ->
  scenarios data <> [] ->
  (activeScenario (ui_app u) < length (scenarios data))%nat
  /\ (comparisonScenario (ui_app u) = 1%nat
      \/ (comparisonScenario (ui_app u) < length (scenarios data))%nat)
  /\ (exists scA scB,
        scenarios data !! activeScenario (ui_app u) = Some scA
        /\ comparison_pair (scenarios data) (activeScenario (ui_app u))
                           (comparisonScenario (ui_app u))
           = (Some scA, Some scB)).
Proof.
  intros Hreach Hne.
  assert (Hinv : (activeScenario (ui_app u) < length (scenarios data))%nat
                 /\ (comparisonScenario (ui_app u) = 1%nat
                     \/ (comparisonScenario (ui_app u)
                         < length (scenarios data))%nat)).
  { induction Hreach as [|u ev u' _ [IHa IHc] Hh].
    - simpl. split; [|by left].
      destruct (scenarios data); [done | simpl; lia].
    - destruct (handle_indices _ _ _ _ Hh) as [[-> | Ha] [-> | Hc]]; auto. }
  destruct Hinv as [Ha Hc]. split; [exact Ha|]. split; [exact Hc|].
  apply lookup_lt_is_Some in Ha as [scA HA]. unfold comparison_pair.
  rewrite HA.
  destruct (scenarios data !! comparisonScenario (ui_app u)) as [scB|];
    [by eexists _, _|].
  destruct (scenarios data) as [|sc0 scs]; [done|]. by eexists _, _.
Qed.

Lemma scenario_indices_in_range_witness :
  (activeScenario (ui_app Examples.ui_compare_same) < 2)%nat
  /\ exists scA scB,
       comparison_pair (scenarios Examples.data_two) 1 1
       = (Some scA, Some scB).
Proof.
  assert (Hreach : reachable Examples.data_two Examples.ui_compare_same).
  { eapply reach_step with (ev := ScenarioChange 1);
      [eapply reach_step with (ev := CompareClick); [apply reach_init|]|];
      reflexivity. }
  destruct (scenario_indices_in_range _ _ Hreach ltac:(discriminate))
    as (Ha & _ & scA & scB & _ & Hp).
  split; [exact Ha|]. by exists scA, scB.
Defined.

Lemma comparison_options_elem (scs : list Scenario) (active i : nat) :
  i ∈ comparison_options scs active
  <-> (i < length scs)%nat /\ i <> active.
Proof.
  unfold comparison_options. rewrite list_elem_of_filter, elem_of_seq.
  split; [intros [? [_ ?]]; split; [lia|done] | intros [? ?]; split; [done|lia]].
Qed.

(** X12. The comparison selector offers every scenario index except the active
    one, each once, in order - none at all for a single scenario - and the
    interface accepts a comparison change exactly for an offered index in
    comparison mode; the target it sets is therefore never the active
    index. *)
Theorem comparison_selector (data : MassingData) (u : UiState) (i : nat) :
  (i ∈ comparison_options (scenarios data) (activeScenario (ui_app u))
   <-> (i < length (scenarios data))%nat /\ i <> activeScenario (ui_app u))
  /\ NoDup (comparison_options (scenarios data) (activeScenario (ui_app u)))
  /\ (length (scenarios data) <= 1 ->
      activeScenario (ui_app u) = 0 ->
      comparison_options (scenarios data) (activeScenario (ui_app u)) = [])%nat
  /\ (forall u',
        handle data (ComparisonChange i) u = Some u'
        <-> comparisonMode (ui_app u) = true
            /\ i ∈ comparison_options (scenarios data)
                                      (activeScenario (ui_app u))
            /\ u' = liftApp (setComparisonScenario i) u)
  /\ (forall u',
        handle data (ComparisonChange i) u = Some u' ->
        comparisonScenario (ui_app u') = i
        /\ comparisonScenario (ui_app u') <> activeScenario (ui_app u')).
Proof.
  assert (Hiff : forall u',
            handle data (ComparisonChange i) u = Some u'
            <-> comparisonMode (ui_app u) = true
                /\ i ∈ comparison_options (scenarios data)
                                          (activeScenario (ui_app u))
                /\ u' = liftApp (setComparisonScenario i) u).
  { intros u'. rewrite comparison_options_elem. unfold handle.
    case_bool_decide as Hn.
    - split; [discriminate | intros (_ & [Hi _] & _); lia].
    - destruct (comparisonMode (ui_app u)); simpl;
        [|split; [discriminate | by intros [? _]]].
      case_bool_decide as Hi; simpl;
        [|split; [discriminate | intros (_ & [? _] & _); lia]].
      destruct (Nat.eqb_spec i (activeScenario (ui_app u))) as [He|He]; simpl.
      + split; [discriminate | by intros (_ & [_ ?] & _)].
      + split; [by intros [= <-] | by intros (_ & _ & ->)]. }
  split; [apply comparison_options_elem|]. split; [|split; [|split]].
  - apply NoDup_filter, NoDup_seq.
  - intros Hlen Ha. rewrite Ha. unfold comparison_options.
    destruct (scenarios data) as [|sc0 [|sc1 scs]]; simpl in *; [done|done|lia].
  - exact Hiff.
  - intros u' Hh. apply Hiff in Hh as (_ & Hi & ->).
    apply comparison_options_elem in Hi as [_ Hne]. by split.
Qed.

Lemma comparison_selector_witness :
  comparison_options [ Examples.scenario_one_floor ] 0 = []
  /\ comparisonScenario
       (ui_app (liftApp (setComparisonScenario 0) Examples.ui_compare_same))
     <> activeScenario
          (ui_app (liftApp (setComparisonScenario 0) Examples.ui_compare_same)).
Proof.
  split.
  - apply (proj1 (proj2 (proj2
             (comparison_selector
                {| lot := Examples.lot_50x100;
                   scenarios := [ Examples.scenario_one_floor ] |}
                initialUi 0))));
      [simpl; lia | reflexivity].
  - apply (proj2 (proj2 (proj2 (proj2
             (comparison_selector Examples.data_two Examples.ui_compare_same
                0)))) _).
    reflexivity.
Defined.

End IndexFacts.

Section PreselectFacts.

Variable includes_ci : string -> string -> bool.

(** X13. The URL preselection picks the first scenario whose name contains the
    requested text and changes nothing but the active index: unlike the
    scenario select it keeps the selected and the hovered floor; without a
    parameter, with an empty one, or when no name matches, the state is
    left as it is, so an index inside the list stays inside. *)
Theorem preselect_first_match (scenarioName : option string)
    (data : MassingData) (s : AppState) :
  let s' := preselectScenario includes_ci scenarioName data s in
  selectedFloor s' = selectedFloor s
  /\ hoveredFloor s' = hoveredFloor s
  /\ comparisonScenario s' = comparisonScenario s
  /\ comparisonMode s' = comparisonMode s
  /\ (s' = s
      \/ exists q sc,
           scenarioName = Some q /\ q <> ""
           /\ scenarios data !! activeScenario s' = Some sc
           /\ includes_ci (name sc) q = true
           /\ (forall j sc',
                 (j < activeScenario s')%nat ->
                 scenarios data !! j = Some sc' ->
                 includes_ci (name sc') q = false)
           /\ s' = setActiveScenario (activeScenario s') s)
  /\ ((forall q sc, scenarioName = Some q -> sc ∈ scenarios data ->
                    includes_ci (name sc) q = false) ->
      s' = s)
  /\ ((activeScenario s < length (scenarios data))%nat ->
      (activeScenario s' < length (scenarios data))%nat).
Proof.
  cbv zeta. unfold preselectScenario.
  destruct scenarioName as [q|]; [|by repeat split; auto].
  destruct (String.eqb_spec q "") as [->|Hq]; [by repeat split; auto|].
  destruct (list_find _ (scenarios data)) as [[idx sc]|] eqn:Hfind;
    [|repeat split; auto].
  apply list_find_Some in Hfind as (Hidx & Hsc & Hfirst).
  split; [done|]. split; [done|]. split; [done|]. split; [done|].
  split; [|split].
  - right. exists q, sc. simpl. repeat split; try done.
    intros j sc' Hj Hj'. apply not_true_iff_false. by eapply Hfirst.
  - intros Hnone. exfalso.
    assert (Hf : includes_ci (name sc) q = false).
    { apply (Hnone q sc eq_refl). by eapply list_elem_of_lookup_2. }
    congruence.
  - intros _. simpl. by eapply lookup_lt_Some.
Qed.

End PreselectFacts.

Section PreselectWitness.

(** A matcher for exercising the preselection: equality of names. *)
Lemma preselect_first_match_witness :
  let s' := preselectScenario String.eqb (Some "Two floors")
              Examples.data_two
              (setSelectedFloor (Some Examples.floor_ground) initialApp) in
  activeScenario s' = 1%nat
  /\ selectedFloor s' = Some Examples.floor_ground.
Proof.
  cbv zeta.
  pose proof (preselect_first_match String.eqb (Some "Two floors")
                Examples.data_two
                (setSelectedFloor (Some Examples.floor_ground) initialApp))
    as (Hsel & _).
  split; [reflexivity | exact Hsel].
Defined.

End PreselectWitness.

(** ** Camera framing and comparison layout *)

Section FramingFacts.
Local Open Scope Q_scope.

(** X14. Single view: for a lot of positive effective frontage and depth the
    camera looks at the centre of the lot from a point above the ground
    and beyond the lot's far corner, at 1.8 times the larger lot
    dimension scaled by (0.6, 0.5, 0.6). *)
Theorem single_view_camera hover (data : MassingData) (sc : Scenario)
    se sl ss sf c1 c2 hf :
  0 < lot_w (lot data) -> 0 < lot_d (lot data) ->
  let scene := MassingScene hover data sc se sl ss sf c1 c2 hf in
  ms_center scene = (lot_w (lot data) / 2, 0, lot_d (lot data) / 2)
  /\ (exists cx cy cz,
        ms_cameraPos scene = (cx, cy, cz)
        /\ lot_w (lot data) < cx /\ 0 < cy /\ lot_d (lot data) < cz
        /\ cy == Qmax (lot_w (lot data)) (lot_d (lot data)) * 0.9).
Proof.
  intros Hw Hd. cbv zeta. split; [reflexivity|].
  unfold MassingScene. cbn [ms_cameraPos]. fold (lot_w (lot data)).
  fold (lot_d (lot data)).
  pose proof (Q.le_max_l (lot_w (lot data)) (lot_d (lot data))) as Hl.
  pose proof (Q.le_max_r (lot_w (lot data)) (lot_d (lot data))) as Hr.
  revert Hl Hr.
  generalize (Qmax (lot_w (lot data)) (lot_d (lot data))) as mx.
  revert Hw Hd. generalize (lot_w (lot data)) (lot_d (lot data)).
  intros w d Hw Hd mx Hl Hr.
  eexists _, _, _. split; [reflexivity|].
  unfold Qdiv. change (/ 2) with (1 # 2).
  repeat split; lra.
Qed.

Lemma single_view_camera_witness :
  exists cx cy cz,
    ms_cameraPos (MassingScene ∅ Examples.data_two
                    Examples.scenario_one_floor false true true false
                    None None None) = (cx, cy, cz)
    /\ 50 < cx /\ 0 < cy /\ 100 < cz.
Proof.
  destruct (single_view_camera ∅ Examples.data_two
              Examples.scenario_one_floor false true true false
              None None None)
    as (_ & cx & cy & cz & Hpos & Hx & Hy & Hz & _);
    [reflexivity | reflexivity |].
  exists cx, cy, cz. by repeat split.
Defined.



End FramingFacts.

(** * The earlier viewer *)

Module OldViewerFacts.
Import OldViewer.

Section TriangleFacts.
Local Open Scope Z_scope.

Variable parseColor : string -> Q * Q * Q.

Lemma skip_iff_not_below (verts : list vec3) (a b c : Z) :
  (a >=? Z.of_nat (length verts)) || (b >=? Z.of_nat (length verts))
  || (c >=? Z.of_nat (length verts))
  = negb (below (length verts) (a, b, c)).
Proof.
  unfold below. rewrite !negb_andb, !Z.geb_leb, <- !Z.leb_antisym.
  reflexivity.
Qed.

Lemma vertex_at_Some (verts : list vec3) (a : Z) :
  0 <= a < Z.of_nat (length verts) -> is_Some (vertex_at verts a).
Proof.
  intros [H0 H1]. unfold vertex_at.
  rewrite (proj2 (Z.ltb_ge a 0)) by lia.
  apply lookup_lt_is_Some. lia.
Qed.

Lemma vertex_at_negative (verts : list vec3) (a : Z) :
  a < 0 -> vertex_at verts a = None.
Proof. intros Ha. unfold vertex_at. by rewrite (proj2 (Z.ltb_lt a 0)). Qed.

Lemma swapped_length (v : vec3) : length (swapped v) = 3%nat.
Proof. by destruct v as [[x y] z]. Qed.

Lemma rgb_length (css : string) : length (rgb parseColor css) = 3%nat.
Proof. unfold rgb. by destruct (parseColor css) as [[r g] b]. Qed.

(** X16. The triangle buffers: when every face that passes the bounds check
    has non-negative indices, the loop succeeds, skips each face with an
    index at or beyond the vertex count, and emits nine position numbers
    and nine color numbers for each remaining face, so the two buffers
    always have the same length; a face that passes the bounds check with
    a negative index makes the loop throw. *)
Theorem triangle_buffers (verts : list vec3) (cols : list string)
    (fcs : list (Z * Z * Z)) (i : nat) :
  (Forall (fun f => below (length verts) f = true -> nonneg f = true) fcs ->
   exists ps cs,
     expand parseColor verts cols i fcs = Rendered (ps, cs)
     /\ length ps
        = (9 * length (filter (fun f => below (length verts) f = true) fcs))%nat
     /\ length cs = length ps)
  /\ (Exists (fun f => below (length verts) f = true /\ nonneg f = false) fcs ->
      expand parseColor verts cols i fcs = TypeError).
Proof.
  revert i. induction fcs as [|[[a b] c] rest IH]; intros i.
  { split; [by eexists _, _ | by intros H; apply Exists_nil in H]. }
  simpl expand. rewrite skip_iff_not_below, filter_cons.
  destruct (below (length verts) (a, b, c)) eqn:Hb; simpl negb; cbv iota.
  - assert (Hlt : a < Z.of_nat (length verts) /\ b < Z.of_nat (length verts)
                  /\ c < Z.of_nat (length verts)).
    { unfold below in Hb. apply andb_prop in Hb as [Hb Hc].
      apply andb_prop in Hb as [Ha Hb]. lia. }
    rewrite decide_True by done. split.
    + intros Hall. apply Forall_cons in Hall as [Hnn Hall].
      specialize (Hnn Hb). unfold nonneg in Hnn.
      apply andb_prop in Hnn as [Hnn Hc0]. apply andb_prop in Hnn as [Ha0 Hb0].
      destruct (vertex_at_Some verts a) as [va ->]; [lia|].
      destruct (vertex_at_Some verts b) as [vb ->]; [lia|].
      destruct (vertex_at_Some verts c) as [vc ->]; [lia|].
      destruct (proj1 (IH (S i)) Hall) as (ps & cs & -> & Hps & Hcs).
      eexists _, _. split; [reflexivity|].
      rewrite !length_app, !swapped_length, !rgb_length, Hcs, Hps. simpl. lia.
    + intros Hex. apply Exists_cons in Hex as [[_ Hneg] | Hex].
      * unfold nonneg in Hneg.
        destruct (Z.leb_spec 0 a) as [Ha0|Ha0];
          [|by rewrite (vertex_at_negative verts a)].
        destruct (vertex_at_Some verts a) as [va ->]; [lia|].
        destruct (Z.leb_spec 0 b) as [Hb0|Hb0];
          [|by rewrite (vertex_at_negative verts b)].
        destruct (vertex_at_Some verts b) as [vb ->]; [lia|].
        destruct (Z.leb_spec 0 c) as [Hc0|Hc0]; [discriminate|].
        by rewrite (vertex_at_negative verts c).
      * rewrite (proj2 (IH (S i)) Hex).
        by destruct (vertex_at verts a), (vertex_at verts b),
          (vertex_at verts c).
  - rewrite decide_False by done. split.
    + intros Hall. apply Forall_cons in Hall as [_ Hall].
      apply (proj1 (IH (S i)) Hall).
    + intros Hex. apply Exists_cons in Hex as [[Hb' _] | Hex]; [congruence|].
      apply (proj2 (IH (S i)) Hex).
Qed.

(** X17. [BuildingMesh] renders nothing, without failing, when the geometry is
    missing, has no vertices or no faces, or when no face passes the
    bounds check. *)
Theorem nothing_to_draw (g : MassingGeometry) :
  (vertices g = None \/ vertices g = Some [] \/ faces g = None
   \/ faces g = Some []
   \/ exists verts fcs,
        vertices g = Some verts /\ faces g = Some fcs
        /\ Forall (fun f => below (length verts) f = false) fcs) ->
  BuildingMesh parseColor (Some g) = Rendered None.
Proof.
  unfold BuildingMesh.
  intros [-> | [-> | [Hf | [Hf | (verts & fcs & -> & -> & Hall)]]]];
    try reflexivity.
  - rewrite Hf. by destruct (vertices g) as [[|]|].
  - rewrite Hf. by destruct (vertices g) as [[|]|].
  - destruct verts as [|v verts]; [reflexivity|].
    destruct fcs as [|f fcs]; [reflexivity|].
    assert (Hnil : filter (fun x => below (length (v :: verts)) x = true)
                          (f :: fcs) = []).
    { clear -Hall. induction Hall as [|x l Hx _ IH]; [done|].
      rewrite filter_cons, decide_False by congruence. exact IH. }
    destruct (proj1 (triangle_buffers (v :: verts) (default [] (colors g))
                       (f :: fcs) 0)) as (ps & cs & He & Hps & _).
    { eapply Forall_impl; [exact Hall|]. intros ? ->. discriminate. }
    rewrite He. rewrite Hnil in Hps. simpl in Hps.
    destruct ps; [reflexivity | discriminate].
Qed.

End TriangleFacts.

Lemma triangle_buffers_witness :
  exists ps cs,
    expand (fun _ => (1, 1, 1)%Q) [ (0, 0, 0); (10, 0, 0); (0, 10, 0) ]%Q []
           0 [ (0, 1, 2); (0, 1, 3) ]%Z = Rendered (ps, cs)
    /\ length ps = 9%nat /\ length cs = length ps.
Proof.
  destruct (proj1 (triangle_buffers (fun _ => (1, 1, 1)%Q)
                     [ (0, 0, 0); (10, 0, 0); (0, 10, 0) ]%Q []
                     [ (0, 1, 2); (0, 1, 3) ]%Z 0))
    as (ps & cs & He & Hps & Hcs); [repeat constructor|].
  exists ps, cs. split; [exact He|]. split; [exact Hps | exact Hcs].
Defined.

Lemma nothing_to_draw_witness :
  BuildingMesh (fun _ => (1, 1, 1)%Q)
    (Some {| vertices := Some [ (0, 0, 0)%Q ];
             faces := Some [ (0, 1, 2)%Z ];
             colors := None |}) = Rendered None.
Proof.
  apply nothing_to_draw. right. right. right. right.
  eexists _, _. split; [reflexivity|]. split; [reflexivity|].
  repeat constructor.
Defined.


Section CameraFacts.
Local Open Scope Q_scope.

(** X18. The camera of the earlier viewer is never lower than the building:
    its height is at least the scenario's maximum height (100 when that
    is missing or zero) and at least 100, and it stands equally far out
    along x and z. *)
Theorem camera_above_building (max_height_ft : option Q) :
  exists x y z,
    cameraPosition max_height_ft = (x, y, z)
    /\ Js.or_num max_height_ft 100 <= y
    /\ 100 <= y
    /\ x = z /\ y <= x.
Proof.
  unfold cameraPosition.
  pose proof (Q.le_max_l (Js.or_num max_height_ft 100 * 2) 200) as Hl.
  pose proof (Q.le_max_r (Js.or_num max_height_ft 100 * 2) 200) as Hr.
  revert Hl Hr.
  generalize (Qmax (Js.or_num max_height_ft 100 * 2) 200) as cd.
  generalize (Js.or_num max_height_ft 100) as h.
  intros h cd Hl Hr. eexists _, _, _. split; [reflexivity|].
  repeat split; lra.
Qed.

End CameraFacts.

End OldViewerFacts.

(** * The development site *)

Module AssemblageFacts.
Import Assemblage.

Section SiteFacts.
Local Open Scope Q_scope.

Lemma has_bbl_spec (b : string) (ls : list LotCard) :
  has_bbl b ls = true <-> b ∈ bbls ls.
Proof.
  unfold has_bbl, bbls. rewrite existsb_exists, list_elem_of_fmap.
  split.
  - intros (l & Hin & Heq). apply String.eqb_eq in Heq.
    exists l. split; [done | by apply list_elem_of_In].
  - intros (l & -> & Hin). exists l.
    split; [by apply list_elem_of_In | apply String.eqb_refl].
Qed.

Lemma has_bbl_false (b : string) (ls : list LotCard) :
  has_bbl b ls = false <-> b ∉ bbls ls.
Proof. rewrite <- not_true_iff_false, has_bbl_spec. tauto. Qed.

Lemma totalLotArea_snoc (ls : list LotCard) (l : LotCard) :
  totalLotArea (ls ++ [ l ]) = totalLotArea ls + lot_area l.
Proof. unfold totalLotArea. by rewrite foldl_app. Qed.

(** X19. Adding a looked-up property: a property whose BBL is already in the
    site is refused - the list is unchanged and the duplicate message is
    shown - and a new one is appended last, marked for development, with
    the page moving to the build step and the total lot area growing by
    its area; with the list the handler saw being the current one, a site
    without duplicate BBLs stays without duplicates. *)
Theorem lookup_adds_once (query0 : string) (data : LookupData)
    (st : PageState) :
  let st' := lookupResolved (lots st) query0 data st in
  (lk_bbl data ∈ bbls (lots st) ->
   lots st' = lots st /\ step st' = step st
   /\ searchError st'
      = "This property is already in your development site.")
  /\ (lk_bbl data ∉ bbls (lots st) ->
      exists l,
        lots st' = lots st ++ [ l ]
        /\ bbl l = lk_bbl data /\ keepExistingBuilding l = false
        /\ lot_area l = Js.or_num (lk_lot_area data) 0
        /\ step st' = StepBuild /\ searchError st' = ""
        /\ totalLotArea (lots st') = totalLotArea (lots st) + lot_area l)
  /\ (NoDup (bbls (lots st)) -> NoDup (bbls (lots st'))).
Proof.
  cbv zeta. unfold lookupResolved.
  destruct (has_bbl (lk_bbl data) (lots st)) eqn:Hdup.
  - apply has_bbl_spec in Hdup. split; [by intros _|]. split; [done|done].
  - apply has_bbl_false in Hdup. split; [done|]. split.
    + intros _. eexists. split; [reflexivity|]. cbn [lots step searchError].
      repeat split. apply totalLotArea_snoc.
    + intros Hnd. cbn [lots]. unfold bbls in *. rewrite map_app. simpl.
      apply NoDup_app. split; [exact Hnd|]. split.
      * intros b Hb Hb'. apply list_elem_of_singleton in Hb'. by subst.
      * apply NoDup_singleton.
Qed.

Lemma totalLotArea_from (a : Q) (ls : list LotCard) :
  foldl (fun s l => s + lot_area l) a ls == a + totalLotArea ls.
Proof.
  unfold totalLotArea. revert a. induction ls as [|l ls IH]; intros a; simpl.
  - ring.
  - rewrite (IH (a + lot_area l)), (IH (0 + lot_area l)). ring.
Qed.

Lemma totalLotArea_cons (l : LotCard) (ls : list LotCard) :
  totalLotArea (l :: ls) == lot_area l + totalLotArea ls.
Proof.
  unfold totalLotArea at 1. simpl. rewrite totalLotArea_from. ring.
Qed.

Lemma filter_other_bbl (b : string) (ls : list LotCard) :
  b ∉ bbls ls -> filter (fun l => bbl l <> b) ls = ls.
Proof.
  unfold bbls. induction ls as [|l ls IH]; [done|]. simpl. intros Hb.
  apply not_elem_of_cons in Hb as [Hne Hb].
  rewrite filter_cons, decide_True by done. by rewrite IH.
Qed.

(** X20. Removing a property: no lot with that BBL is left, every other lot
    stays, in the same order; in a site without duplicate BBLs that holds
    the property, exactly one lot goes and the total lot area drops by its
    area; the page returns to the search step when the site had at most
    one lot, so a duplicate-free site never shows the build step empty
    after a removal. *)
Theorem remove_lot (b : string) (st : PageState) :
  let st' := removeLot b st in
  (b ∉ bbls (lots st'))
  /\ lots st' = filter (fun l => bbl l <> b) (lots st)
  /\ (forall l, l ∈ lots st -> bbl l <> b -> l ∈ lots st')
  /\ (NoDup (bbls (lots st)) -> NoDup (bbls (lots st')))
  /\ (NoDup (bbls (lots st)) ->
      forall l, l ∈ lots st -> bbl l = b ->
        S (length (lots st')) = length (lots st)
        /\ totalLotArea (lots st) == totalLotArea (lots st') + lot_area l)
  /\ (NoDup (bbls (lots st)) -> lots st' = [] -> step st' = StepSearch).
Proof.
  cbv zeta. unfold removeLot. cbn [lots step].
  assert (Hnd_filter : forall ls : list LotCard,
            NoDup (bbls ls) -> NoDup (bbls (filter (fun l => bbl l <> b) ls))).
  { unfold bbls. induction ls as [|l ls IH]; [done|].
    intros Hnd. simpl in Hnd. apply NoDup_cons in Hnd as [Hnotin Hnd].
    rewrite filter_cons. destruct (decide (bbl l <> b)); [|by apply IH].
    simpl. apply NoDup_cons. split; [|by apply IH].
    rewrite list_elem_of_fmap. intros (l' & Heq & Hin').
    apply list_elem_of_filter in Hin' as [_ Hin'].
    apply Hnotin. rewrite list_elem_of_fmap. eauto. }
  assert (Hone : forall ls : list LotCard,
            NoDup (bbls ls) -> forall l, l ∈ ls -> bbl l = b ->
              S (length (filter (fun l' => bbl l' <> b) ls)) = length ls
              /\ totalLotArea ls
                 == totalLotArea (filter (fun l' => bbl l' <> b) ls)
                    + lot_area l).
  { induction ls as [|l0 ls IH]; intros Hnd l Hin Hb.
    { by apply elem_of_nil in Hin. }
    unfold bbls in Hnd. simpl in Hnd. apply NoDup_cons in Hnd as [Hnotin Hnd].
    rewrite filter_cons. apply elem_of_cons in Hin as [-> | Hin].
    - rewrite decide_False by tauto.
      rewrite filter_other_bbl by (by rewrite <- Hb).
      split; [reflexivity|]. rewrite totalLotArea_cons. ring.
    - assert (Hne : bbl l0 <> b).
      { intros Heq. apply Hnotin. rewrite Heq, <- Hb.
        by apply list_elem_of_fmap_2. }
      rewrite decide_True by done.
      destruct (IH Hnd l Hin Hb) as [Hlen Harea].
      split; [simpl; by rewrite Hlen|].
      rewrite !totalLotArea_cons, Harea. ring. }
  split; [|split; [reflexivity|split; [|split; [|split]]]].
  - unfold bbls. rewrite list_elem_of_fmap. intros (l & -> & Hin).
    by apply list_elem_of_filter in Hin as [Hne _].
  - intros l Hin Hne. by apply list_elem_of_filter.
  - apply Hnd_filter.
  - apply Hone.
  - intros Hnd Hnil.
    destruct (lots st) as [|l0 [|l1 ls]] eqn:Hl; [reflexivity..|].
    exfalso. unfold bbls in Hnd. simpl in Hnd.
    apply NoDup_cons in Hnd as [Hnotin _].
    rewrite !filter_cons in Hnil.
    destruct (decide (bbl l0 <> b)) as [|Heq0]; [discriminate|].
    destruct (decide (bbl l1 <> b)) as [|Heq1]; [discriminate|].
    apply Hnotin. apply dec_stable in Heq0, Heq1. rewrite Heq0, <- Heq1.
    apply elem_of_cons. by left.
Qed.

Lemma toggled_involutive (l : LotCard) : toggled (toggled l) = l.
Proof. destruct l. unfold toggled; simpl. by rewrite negb_involutive. Qed.

(** X21. Keeping or releasing an existing building: toggling the same BBL
    twice restores the site exactly; one toggle flips the flag of the lots
    with that BBL and of no other, and changes neither the BBLs, nor the
    number of lots, nor the total lot area. *)
Theorem toggle_keep_building (b : string) (st : PageState) :
  toggleKeepBuilding b (toggleKeepBuilding b st) = st
  /\ bbls (lots (toggleKeepBuilding b st)) = bbls (lots st)
  /\ length (lots (toggleKeepBuilding b st)) = length (lots st)
  /\ totalLotArea (lots (toggleKeepBuilding b st)) = totalLotArea (lots st)
  /\ (forall i l,
        lots st !! i = Some l ->
        exists l',
          lots (toggleKeepBuilding b st) !! i = Some l'
          /\ keepExistingBuilding l'
             = (if String.eqb (bbl l) b then negb (keepExistingBuilding l)
                else keepExistingBuilding l)
          /\ bldgarea l' = bldgarea l /\ lot_area l' = lot_area l).
Proof.
  unfold toggleKeepBuilding. cbn [lots]. split; [|split; [|split; [|split]]].
  - destruct st as [stp q e ls al ao]; simpl. f_equal.
    rewrite map_map. rewrite <- (map_id ls) at 2. apply map_ext.
    intros l. destruct (String.eqb (bbl l) b) eqn:Hb; simpl; rewrite Hb;
      [apply toggled_involutive | reflexivity].
  - unfold bbls. rewrite map_map. apply map_ext.
    intros l. by destruct (String.eqb (bbl l) b).
  - apply length_map.
  - unfold totalLotArea. generalize 0.
    induction (lots st) as [|l ls IH]; intros a; [reflexivity|]. simpl.
    rewrite IH. by destruct (String.eqb (bbl l) b).
  - intros i l Hl. rewrite list_lookup_fmap, Hl. simpl.
    eexists. split; [reflexivity|].
    by destruct (String.eqb (bbl l) b).
Qed.

(** X22. Adjacent properties: the list shown after loading holds only
    properties of the server's answer whose BBL is not in the site the
    handler saw; adding one of them appends it marked for development,
    takes it off the adjacent list and closes the panel, and - offered
    against the current site - keeps a duplicate-free site duplicate-free. *)
Theorem adjacent_lots (answer : option (list AdjacentLot)) (st : PageState) :
  let st1 := adjacentResolved (lots st) answer st in
  lots st1 = lots st
  /\ (forall a, a ∈ adjacentLots st1 ->
        a ∈ default [] answer /\ adj_bbl a ∉ bbls (lots st))
  /\ (forall a, a ∈ default [] answer -> adj_bbl a ∉ bbls (lots st) ->
        a ∈ adjacentLots st1)
  /\ (forall a,
        a ∈ adjacentLots st1 ->
        let st2 := addAdjacentLot a st1 in
        (exists l, lots st2 = lots st ++ [ l ] /\ bbl l = adj_bbl a
                   /\ keepExistingBuilding l = false)
        /\ adjacentOpen st2 = false
        /\ (forall a', a' ∈ adjacentLots st2 -> adj_bbl a' <> adj_bbl a)
        /\ (NoDup (bbls (lots st)) -> NoDup (bbls (lots st2)))).
Proof.
  cbv zeta. unfold adjacentResolved. cbn [lots adjacentLots].
  split; [reflexivity|]. split; [|split].
  - intros a Ha. apply list_elem_of_filter in Ha as [Hf Hin].
    split; [exact Hin | by apply has_bbl_false].
  - intros a Hin Hfresh. apply list_elem_of_filter.
    split; [by apply has_bbl_false | exact Hin].
  - intros a Ha. apply list_elem_of_filter in Ha as [Hf _].
    apply has_bbl_false in Hf. unfold addAdjacentLot.
    cbn [lots adjacentLots adjacentOpen].
    split; [by eexists|]. split; [reflexivity|]. split.
    + intros a' Ha'. by apply list_elem_of_filter in Ha' as [Hne _].
    + intros Hnd. unfold bbls in *. rewrite map_app. simpl.
      apply NoDup_app. split; [exact Hnd|]. split.
      * intros b Hb Hb'. apply list_elem_of_singleton in Hb'. by subst.
      * apply NoDup_singleton.
Qed.

End SiteFacts.

Lemma site_ab_nodup : NoDup (bbls (lots site_ab)).
Proof.
  unfold bbls; simpl. apply NoDup_cons. split.
  - intros Hin. apply list_elem_of_singleton in Hin. discriminate Hin.
  - apply NoDup_singleton.
Qed.

Lemma lookup_adds_once_witness :
  lots (lookupResolved (lots site_ab) "3 main" lookup_b site_ab)
  = lots site_ab
  /\ NoDup (bbls (lots (lookupResolved (lots site_ab) "3 main" lookup_b
                                       site_ab))).
Proof.
  destruct (lookup_adds_once "3 main" lookup_b site_ab) as (Hdup & _ & Hnd).
  split.
  - apply Hdup. apply has_bbl_spec. reflexivity.
  - apply Hnd, site_ab_nodup.
Defined.

Lemma remove_lot_witness :
  S (length (lots (removeLot "1000010001" site_ab))) = 2%nat
  /\ (totalLotArea (lots site_ab)
      == totalLotArea (lots (removeLot "1000010001" site_ab)) + 2500)%Q.
Proof.
  destruct (remove_lot "1000010001" site_ab) as (_ & _ & _ & _ & Hone & _).
  apply (Hone site_ab_nodup lot_a); [|reflexivity].
  apply elem_of_cons. by left.
Defined.

Lemma toggle_keep_building_witness :
  exists l',
    lots (toggleKeepBuilding "1000010002" site_ab) !! 1%nat = Some l'
    /\ keepExistingBuilding l' = true.
Proof.
  destruct (toggle_keep_building "1000010002" site_ab) as (_ & _ & _ & _ & H).
  destruct (H 1%nat lot_b eq_refl) as (l' & Hl' & Hk & _).
  exists l'. split; [exact Hl' | exact Hk].
Defined.

Lemma adjacent_lots_witness :
  exists l,
    lots (addAdjacentLot adjacent_c
            (adjacentResolved (lots site_ab) (Some [ adjacent_c ]) site_ab))
    = lots site_ab ++ [ l ]
    /\ bbl l = "1000010003".
Proof.
  destruct (adjacent_lots (Some [ adjacent_c ]) site_ab) as (_ & _ & Hin & Hadd).
  assert (Ha : adjacent_c ∈ adjacentLots
                 (adjacentResolved (lots site_ab) (Some [ adjacent_c ])
                                   site_ab)).
  { apply Hin; [apply elem_of_cons; by left|].
    apply has_bbl_false. reflexivity. }
  destruct (Hadd adjacent_c Ha) as ((l & Hl & Hb & _) & _).
  exists l. split; [exact Hl | exact Hb].
Defined.

End AssemblageFacts.
